(** * RTK-GNSS correction pipeline: the I2C facade, the NTRIP session and the
      virtual-base handshake of [components/movementsensor/gpsrtkpmtk]

    A shallow embedding of [gpsrtkpmtk.go].  Methods of the Go receiver are
    state-passing functions over a record of its fields; every call that
    leaves the package (caster, I2C bus, NMEA sensor, TCP socket) is answered
    by an oracle of the environment and recorded in a trace of events, so
    that "was the sensor consulted?" and "was the stream reopened?" are
    questions about the trace.  Each method is followed on its own
    goroutine; what another goroutine may do in between is a quantification
    over the incoming state or over the oracle.  The mutexes of [rtkI2C] are
    locked and unlocked in pairs on every path and are left out; [urlMutex]
    of the virtual-base session stays locked on its error paths and is
    modelled. *)

From Stdlib Require Import ZArith List String Ascii Bool Lia.
From Stdlib Require Import Floats.SpecFloat DecimalString Strings.Byte.
Import ListNotations.

Local Open Scope string_scope.
Local Open Scope Z_scope.

(** ** Go values *)

(** [float64]: IEEE 754 binary64 without NaN payloads. *)
Definition float64 : Type := spec_float.

Definition NaN : float64 := S754_nan.
Definition f0 : float64 := S754_zero false.

(** [math.IsNaN]. *)
Definition IsNaN (f : float64) : bool :=
  match f with
  | S754_nan => true
  | _ => false
  end.

(** Go's [==] on floats: no NaN equals anything, both zeros are equal. *)
Definition feq (a b : float64) : bool := SFeqb a b.

(** The literals of the tests, as binary64 (mantissa, exponent). *)
Definition f40_7 : float64 := S754_finite false 5728015776061850 (-47).
Definition fm73_98 : float64 := S754_finite true 5205879694263583 (-46).
Definition f50_5 : float64 := S754_finite false 7107243161944064 (-47).
Definition f5_4 : float64 := S754_finite false 6079859496950170 (-50).

(** [geo.Point]; a [*geo.Point] is an [option Point], [None] being nil. *)
Record Point : Type := NewPoint { Lat : float64; Lng : float64 }.

(** [r3.Vector] and [spatialmath.AngularVelocity]; their zero values. *)
Record Vector : Type := mkVector { vX : float64; vY : float64; vZ : float64 }.
Definition Vector_zero : Vector := mkVector f0 f0 f0.

Record AngularVelocity : Type :=
  mkAngularVelocity { avX : float64; avY : float64; avZ : float64 }.
Definition AngularVelocity_zero : AngularVelocity := mkAngularVelocity f0 f0 f0.

(** Go's [error] values that the package builds or tests for; [None] in an
    [option error] is the nil error. *)
Inductive error : Type :=
| context_Canceled
| io_EOF
| errors_New (msg : string)
| fmt_Errorf_w (msg : string) (wrapped : error).

(** [err.Error()]. *)
Definition Error (e : error) : string :=
  match e with
  | context_Canceled => "context canceled"
  | io_EOF => "EOF"
  | errors_New msg => msg
  | fmt_Errorf_w msg _ => msg
  end.

Definition error_same (a b : error) : bool :=
  match a, b with
  | context_Canceled, context_Canceled => true
  | io_EOF, io_EOF => true
  | _, _ => false
  end.

(** [errors.Is(err, target)] for a sentinel [target]: walk the wrap chain. *)
Fixpoint errors_Is (e target : error) : bool :=
  error_same e target ||
  match e with
  | fmt_Errorf_w _ inner => errors_Is inner target
  | _ => false
  end.

(** [strings.HasPrefix] and [strings.Contains]. *)
Fixpoint HasPrefix (s p : string) : bool :=
  match p, s with
  | EmptyString, _ => true
  | String c p', String d s' => Ascii.eqb c d && HasPrefix s' p'
  | String _ _, EmptyString => false
  end.

Fixpoint Contains (s sub : string) : bool :=
  HasPrefix s sub ||
  match s with
  | EmptyString => false
  | String _ s' => Contains s' sub
  end.

(** ** Collaborators of package [movementsensor] *)

(** Modelled from the spec: [movementsensor.LastError], whose declaration and
    methods [Get] and [Set] are not among the sources.  The spec describes a
    sticky slot that keeps the single latest fatal error and is consulted,
    not consumed, by the facade: once set it stays set until the component
    is rebuilt. *)
Record LastError : Type := mkLastError { le_slot : option error }.

Definition NewLastError (size threshold : Z) : LastError := mkLastError None.

Definition LastError_Get (le : LastError) : option error := le_slot le.

Definition LastError_Set (e : option error) (le : LastError) : LastError :=
  match e with
  | Some _ => mkLastError e
  | None => le
  end.

(** Modelled from the spec: [movementsensor.LastPosition], whose declaration
    and methods are not among the sources.  A single optional point;
    [set] overwrites unconditionally, [get] returns the stored point or
    empty; [isZero] is the point (0,0) and [isNaN] is NaN in either
    coordinate. *)
Record LastPosition : Type := mkLastPosition { lp_point : option Point }.

Definition NewLastPosition : LastPosition := mkLastPosition None.

Definition GetLastPosition (lp : LastPosition) : option Point := lp_point lp.

Definition SetLastPosition (p : option Point) (lp : LastPosition) : LastPosition :=
  mkLastPosition p.

Definition IsZeroPosition (p : Point) : bool :=
  feq (Lng p) f0 && feq (Lat p) f0.

Definition IsPositionNaN (p : Point) : bool :=
  IsNaN (Lng p) || IsNaN (Lat p).

(** ** A state monad with panics

    A Go method over a receiver [St] either returns a value and the new
    receiver, panics (a nil dereference), or never returns ([Blocked]: a lock
    or a wait that is not released, or a loop that outlives its fuel). *)
Inductive outcome (St A : Type) : Type :=
| Ret (a : A) (s : St)
| Panic (s : St)
| Blocked (s : St).

Arguments Ret {St A} a s.
Arguments Panic {St A} s.
Arguments Blocked {St A} s.

Definition M (St A : Type) : Type := St -> outcome St A.

Definition ret {St A : Type} (a : A) : M St A := fun s => Ret a s.

Definition bind {St A B : Type} (c : M St A) (k : A -> M St B) : M St B :=
  fun s =>
    match c s with
    | Ret a s' => k a s'
    | Panic s' => Panic s'
    | Blocked s' => Blocked s'
    end.

Definition gets {St A : Type} (f : St -> A) : M St A := fun s => Ret (f s) s.
Definition modify {St : Type} (f : St -> St) : M St unit := fun s => Ret tt (f s).
Definition panic {St A : Type} : M St A := fun s => Panic s.
Definition block {St A : Type} : M St A := fun s => Blocked s.

Declare Scope go_scope.
Delimit Scope go_scope with go.
Notation "x <- c ;; k" := (bind c (fun x => k))
  (at level 61, c at next level, right associativity) : go_scope.
Notation "' pat <- c ;; k" := (bind c (fun x => match x with pat => k end))
  (at level 61, pat pattern, c at next level, right associativity) : go_scope.
Notation "c ;; k" := (bind c (fun _ => k))
  (at level 61, right associativity) : go_scope.

(** [fmt.Sprintf("%d", n)]. *)
Definition itoa (n : Z) : string := NilZero.string_of_int (Z.to_int n).

(** ** The receiver [rtkI2C] *)

(** Handles of the outside world are told apart by a number. *)
Definition Client : Type := nat.
Definition Stream : Type := nat.
Definition Handle : Type := nat.
Definition Message : Type := nat.
Definition Closer : Type := nat.

(** [rtk.NtripInfo], by the fields the package reads and writes. *)
Record NtripInfo : Type := mkNtripInfo {
  URL : string;
  Username : string;
  Password : string;
  MountPoint : string;
  NtripClient : option Client;
  NtripStream : option Stream;
  MaxConnectAttempts : Z
}.

Definition set_Client (c : option Client) (n : NtripInfo) : NtripInfo :=
  mkNtripInfo (URL n) (Username n) (Password n) (MountPoint n) c
              (NtripStream n) (MaxConnectAttempts n).

Definition set_Stream (s : option Stream) (n : NtripInfo) : NtripInfo :=
  mkNtripInfo (URL n) (Username n) (Password n) (MountPoint n)
              (NtripClient n) s (MaxConnectAttempts n).

Inductive Level : Type := LDebug | LInfo | LWarn | LError.

Inductive SensorOp : Type :=
| OpPosition | OpLinearVelocity | OpLinearAcceleration | OpAngularVelocity
| OpCompassHeading | OpOrientation | OpProperties | OpAccuracy | OpClose.

(** What the receiver did to the outside world, newest first. *)
Inductive Event : Type :=
| E_Log (lvl : Level) (msg : string)
| E_NewClient (casterAddr user pwd : string)
| E_GetStream (c : Client) (mountPoint : string)
| E_IsCasterAlive (c : Client)
| E_OpenHandle (addr : Z)
| E_Write (h : Handle) (data : list byte)
| E_HandleClose (h : Handle)
| E_StreamRead (s : Stream)
| E_NextMessage (s : option Stream)
| E_Done
| E_Sensor (op : SensorOp)
| E_Cancel
| E_WriterClose (w : Closer)
| E_CloseIdleConnections (c : Client)
| E_StreamClose (s : Stream)
| E_Wait.

Record rtkI2C : Type := mkRtkI2C {
  trace : list Event;
  cancelCtx : option error;          (* cancelCtx.Err() *)
  activeBackgroundWorkers : Z;
  ntripClient : option NtripInfo;    (* *rtk.NtripInfo *)
  ntripStatus : bool;
  err : LastError;
  lastposition : LastPosition;
  correctionWriter : option Closer;
  wbaud : Z;
  addr : Z
}.

Definition with_trace (t : list Event) (g : rtkI2C) : rtkI2C :=
  mkRtkI2C t (cancelCtx g) (activeBackgroundWorkers g) (ntripClient g)
           (ntripStatus g) (err g) (lastposition g) (correctionWriter g)
           (wbaud g) (addr g).

Definition with_cancelCtx (c : option error) (g : rtkI2C) : rtkI2C :=
  mkRtkI2C (trace g) c (activeBackgroundWorkers g) (ntripClient g)
           (ntripStatus g) (err g) (lastposition g) (correctionWriter g)
           (wbaud g) (addr g).

Definition with_workers (n : Z) (g : rtkI2C) : rtkI2C :=
  mkRtkI2C (trace g) (cancelCtx g) n (ntripClient g)
           (ntripStatus g) (err g) (lastposition g) (correctionWriter g)
           (wbaud g) (addr g).

Definition with_ntripClient (n : option NtripInfo) (g : rtkI2C) : rtkI2C :=
  mkRtkI2C (trace g) (cancelCtx g) (activeBackgroundWorkers g) n
           (ntripStatus g) (err g) (lastposition g) (correctionWriter g)
           (wbaud g) (addr g).

Definition with_ntripStatus (b : bool) (g : rtkI2C) : rtkI2C :=
  mkRtkI2C (trace g) (cancelCtx g) (activeBackgroundWorkers g) (ntripClient g)
           b (err g) (lastposition g) (correctionWriter g)
           (wbaud g) (addr g).

Definition with_err (e : LastError) (g : rtkI2C) : rtkI2C :=
  mkRtkI2C (trace g) (cancelCtx g) (activeBackgroundWorkers g) (ntripClient g)
           (ntripStatus g) e (lastposition g) (correctionWriter g)
           (wbaud g) (addr g).

Definition with_correctionWriter (w : option Closer) (g : rtkI2C) : rtkI2C :=
  mkRtkI2C (trace g) (cancelCtx g) (activeBackgroundWorkers g) (ntripClient g)
           (ntripStatus g) (err g) (lastposition g) w
           (wbaud g) (addr g).

(** [g.err.Set(e)] and [g.err.Get()]. *)
Definition err_Set (e : option error) : M rtkI2C unit :=
  modify (fun g => with_err (LastError_Set e (err g)) g).

Definition err_Get : M rtkI2C (option error) :=
  gets (fun g => LastError_Get (err g)).

Definition emit (ev : Event) : M rtkI2C unit :=
  modify (fun g => with_trace (ev :: trace g) g).

(** A call out of the package: the oracle answers for the moment of the call
    (the number of events so far) and the call is recorded. *)
Definition ask {A : Type} (oracle : nat -> A) (ev : Event) : M rtkI2C A :=
  fun g => Ret (oracle (List.length (trace g))) (with_trace (ev :: trace g) g).

Definition logf (lvl : Level) (msg : string) : M rtkI2C unit :=
  emit (E_Log lvl msg).

(** [rtcm3.NewScanner(io.TeeReader(stream, w))]: the scanner remembers the
    stream it frames. *)
Record Scanner : Type := NewScanner { sc_reader : option Stream }.

(** How one turn of the relay loop ends: [continue] (or falling off the end
    of the body) with the scanner to use next, or [return]. *)
Inductive ctl : Type :=
| Continue (scanner : Scanner)
| Return.

Definition float32 : Type := spec_float.

Local Open Scope go_scope.

Section RtkI2C.

(** Declarations of [spatialmath] and [movementsensor] that are not among
    the sources, taken as parameters. *)
Variables Orientation Properties : Type.
Variable NewZeroOrientation : Orientation.
Variable Properties_zero : Properties.
Variable PMTKAddChk : list byte -> list byte.

(** The outside world: one oracle per call that leaves the package,
    indexed by the moment of the call. *)
Record Env : Type := mkEnv {
  ntrip_NewClient : nat -> option Client * option error;
  Client_GetStream : nat -> option Stream * option error;
  Client_IsCasterAlive : nat -> bool;
  bus_OpenHandle : nat -> Handle * option error;
  handle_Write : nat -> option error;
  handle_Close : nat -> option error;
  Stream_Read : nat -> list byte * option error;
  scanner_NextMessage : nat -> option Message * option error;
  cancel_fired : nat -> bool;
  nmea_Position : nat -> option Point * float64 * option error;
  nmea_LinearVelocity : nat -> Vector * option error;
  nmea_LinearAcceleration : nat -> Vector * option error;
  nmea_AngularVelocity : nat -> AngularVelocity * option error;
  nmea_CompassHeading : nat -> float64 * option error;
  nmea_Orientation : nat -> Orientation * option error;
  nmea_Properties : nat -> option Properties * option error;
  nmea_Accuracy : nat -> list (string * float32) * option error;
  nmea_Close : nat -> option error;
  correctionWriter_Close : nat -> option error;
  Stream_Close : nat -> option error;
  (** what the background goroutines have done to the receiver by the
      time a [Wait] on them is over *)
  workers_run : nat -> rtkI2C -> rtkI2C
}.

Variable env : Env.

(** [select { case <-g.cancelCtx.Done(): ...; default: }]: the context is
    done when [cancelFunc] ran on this goroutine or, by now, on another. *)
Definition ctx_Done : M rtkI2C bool :=
  fired <- ask (cancel_fired env) E_Done ;;
  c <- gets cancelCtx ;;
  match c with
  | Some _ => ret true
  | None =>
      if fired : bool
      then modify (with_cancelCtx (Some context_Canceled)) ;; ret true
      else ret false
  end.

(** Dereferencing [g.ntripClient]. *)
Definition deref_ntripClient : M rtkI2C NtripInfo :=
  fun g => match ntripClient g with
           | Some n => Ret n g
           | None => Panic g
           end.

Definition assign_Client (c : option Client) : M rtkI2C unit :=
  n <- deref_ntripClient ;;
  modify (with_ntripClient (Some (set_Client c n))).

Definition assign_Stream (s : option Stream) : M rtkI2C unit :=
  n <- deref_ntripClient ;;
  modify (with_ntripClient (Some (set_Stream s n))).

(** *** connect *)

(** The [for attempts := 0; attempts < maxAttempts; attempts++] loop, by
    the number of turns left; [Some r] is the [return r] inside it. *)
Fixpoint connect_attempts (left : nat) (casterAddr user pwd : string)
  : M rtkI2C (option (option error)) :=
  match left with
  | O => ret None
  | S left' =>
      ' (ntripclient, e) <- ask (ntrip_NewClient env)
                                (E_NewClient casterAddr user pwd) ;;
      match e with
      | None =>
          logf LDebug "Connected to NTRIP caster" ;;
          assign_Client ntripclient ;;
          r <- err_Get ;;
          ret (Some r)
      | Some _ => connect_attempts left' casterAddr user pwd
      end
  end.

Definition connect (casterAddr user pwd : string) (maxAttempts : Z)
  : M rtkI2C (option error) :=
  logf LInfo "starting connect" ;;
  r <- connect_attempts (Z.to_nat maxAttempts) casterAddr user pwd ;;
  match r with
  | Some res => ret res
  | None =>
      ret (Some (errors_New ("Can't connect to NTRIP caster after "
                             ++ itoa maxAttempts ++ " attempts")))
  end.

(** *** getStream *)

(** [g.ntripClient.Client.GetStream(mountPoint)]; a nil client has no
    caster to ask. *)
Definition call_GetStream (mountPoint : string)
  : M rtkI2C (option Stream * option error) :=
  n <- deref_ntripClient ;;
  match NtripClient n with
  | Some c => ask (Client_GetStream env) (E_GetStream c mountPoint)
  | None => panic
  end.

(** The [for !success && attempts < maxAttempts] loop, by the number of
    turns left, carrying [rc] and [err]; [inl r] is the [return r] of the
    cancellation case, [inr (rc, err)] the values the loop ends with. *)
Fixpoint getStream_attempts (left : nat) (mountPoint : string)
         (rc : option Stream) (e : option error)
  : M rtkI2C (option error + option Stream * option error) :=
  match left with
  | O => ret (inr (rc, e))
  | S left' =>
      done <- ctx_Done ;;
      if done : bool then ret (inl (Some (errors_New "Canceled")))
      else
        ' (rc', e') <- call_GetStream mountPoint ;;
        match e' with
        | None => ret (inr (rc', e'))
        | Some _ => getStream_attempts left' mountPoint rc' e'
        end
  end.

(** What follows the loop. *)
Definition getStream_finish (rc : option Stream) (e : option error)
  : M rtkI2C (option error) :=
  let connected :=
    logf LDebug "Connected to stream" ;;
    assign_Stream rc ;;
    err_Get in
  match e with
  | Some e' =>
      if Contains (Error e') "ICY"
      then logf LWarn ("Detected old HTTP protocol: " ++ Error e') ;;
           connected
      else logf LError ("Can't connect to NTRIP stream: " ++ Error e') ;;
           ret (Some e')
  | None => connected
  end.

Definition getStream (mountPoint : string) (maxAttempts : Z)
  : M rtkI2C (option error) :=
  logf LDebug "Getting NTRIP stream" ;;
  r <- getStream_attempts (Z.to_nat maxAttempts) mountPoint None None ;;
  match r with
  | inl res => ret res
  | inr (rc, e) => getStream_finish rc e
  end.

(** *** receiveAndWriteI2C *)

(** [g.ntripClient.Stream.Read(buf)] into a fresh 1100-byte buffer: the
    bytes [buf[:n]] and the error. *)
Definition call_StreamRead : M rtkI2C (list byte * option error) :=
  n <- deref_ntripClient ;;
  match NtripStream n with
  | Some s => ask (Stream_Read env) (E_StreamRead s)
  | None => panic
  end.

Definition call_Write (handle : Handle) (data : list byte)
  : M rtkI2C (option error) :=
  ask (handle_Write env) (E_Write handle data).

(** One turn of [for g.ntripStatus { ... }].  [err0] is the function's own
    [err], which the body shadows and never assigns. *)
Definition relayCycle (err0 : option error) (scanner : Scanner)
  : M rtkI2C ctl :=
  done <- ctx_Done ;;
  if done : bool then err_Set err0 ;; ret Return
  else
    a <- gets addr ;;
    ' (handle, e) <- ask (bus_OpenHandle env) (E_OpenHandle a) ;;
    match e with
    | Some e' =>
        logf LError ("can't open gps i2c " ++ Error e') ;;
        err_Set e ;; ret Return
    | None =>
        ' (msg, e) <- ask (scanner_NextMessage env)
                          (E_NextMessage (sc_reader scanner)) ;;
        let close_handle :=
          e <- ask (handle_Close env) (E_HandleClose handle) ;;
          match e with
          | Some e' =>
              logf LDebug ("failed to close handle: %s" ++ Error e') ;;
              err_Set e ;; ret Return
          | None => ret (Continue scanner)
          end in
        match e with
        | Some _ =>
            modify (with_ntripStatus false) ;;
            match msg with
            | None =>
                logf LDebug "No message... reconnecting to stream..." ;;
                n <- deref_ntripClient ;;
                e <- getStream (MountPoint n) (MaxConnectAttempts n) ;;
                match e with
                | Some _ => err_Set e ;; ret Return
                | None =>
                    n <- deref_ntripClient ;;
                    let r := NtripStream n in
                    ' (buf, e) <- call_StreamRead ;;
                    match e with
                    | Some _ => err_Set e ;; ret Return
                    | None =>
                        e <- call_Write handle (PMTKAddChk buf) ;;
                        match e with
                        | Some e' =>
                            logf LError ("i2c handle write failed "
                                         ++ Error e') ;;
                            err_Set e ;; ret Return
                        | None =>
                            modify (with_ntripStatus true) ;;
                            ret (Continue (NewScanner r))
                        end
                    end
                end
            | Some _ => close_handle
            end
        | None => close_handle
        end
    end.

(** The loop itself; it may go on for ever, so it is run on fuel. *)
Fixpoint relayLoop (fuel : nat) (err0 : option error) (scanner : Scanner)
  : M rtkI2C unit :=
  status <- gets ntripStatus ;;
  if negb status then ret tt
  else
    match fuel with
    | O => block
    | S fuel' =>
        c <- relayCycle err0 scanner ;;
        match c with
        | Return => ret tt
        | Continue scanner' => relayLoop fuel' err0 scanner'
        end
    end.

(** The body of [receiveAndWriteI2C], before its deferred [Done]. *)
Definition receiveAndWriteI2C_body (fuel : nat) : M rtkI2C unit :=
  c <- gets cancelCtx ;;
  match c with
  | Some _ => ret tt
  | None =>
      n <- deref_ntripClient ;;
      e <- connect (URL n) (Username n) (Password n) (MaxConnectAttempts n) ;;
      match e with
      | Some _ => err_Set e ;; ret tt
      | None =>
          n <- deref_ntripClient ;;
          alive <- match NtripClient n with
                   | Some c => ask (Client_IsCasterAlive env) (E_IsCasterAlive c)
                   | None => panic
                   end ;;
          (if alive : bool then ret tt
           else logf LInfo ("caster " ++ URL n ++ " seems to be down")) ;;
          a <- gets addr ;;
          ' (handle, e) <- ask (bus_OpenHandle env) (E_OpenHandle a) ;;
          match e with
          | Some e' =>
              logf LError ("can't open gps i2c " ++ Error e') ;;
              err_Set e ;; ret tt
          | None =>
              baud <- gets wbaud ;;
              let cmd251 := PMTKAddChk (list_byte_of_string ("PMTK251," ++ itoa baud)) in
              let cmd314 := PMTKAddChk (list_byte_of_string
                              "PMTK314,1,1,1,1,1,0,0,0,0,0,0,0,0,0,0,0,0,0,0") in
              let cmd220 := PMTKAddChk (list_byte_of_string "PMTK220,1000") in
              e <- call_Write handle cmd251 ;;
              (match e with
               | Some _ => logf LDebug "Failed to set baud rate"
               | None => ret tt
               end) ;;
              e <- call_Write handle cmd314 ;;
              match e with
              | Some _ => logf LDebug "failed to set NMEA output" ;;
                          err_Set e ;; ret tt
              | None =>
              e <- call_Write handle cmd220 ;;
              match e with
              | Some _ => logf LDebug "failed to set NMEA update rate" ;;
                          err_Set e ;; ret tt
              | None =>
              e <- getStream (MountPoint n) (MaxConnectAttempts n) ;;
              match e with
              | Some _ => err_Set e ;; ret tt
              | None =>
              n <- deref_ntripClient ;;
              let r := NtripStream n in
              ' (buf, e) <- call_StreamRead ;;
              match e with
              | Some _ => err_Set e ;; ret tt
              | None =>
              e <- call_Write handle (PMTKAddChk buf) ;;
              match e with
              | Some e' =>
                  logf LError ("i2c handle write failed " ++ Error e') ;;
                  err_Set e ;; ret tt
              | None =>
                  modify (with_ntripStatus true) ;;
                  relayLoop fuel e (NewScanner r)
              end end end end end
          end
      end
  end.

(** [defer g.activeBackgroundWorkers.Done()]. *)
Definition receiveAndWriteI2C (fuel : nat) : M rtkI2C unit :=
  receiveAndWriteI2C_body fuel ;;
  modify (fun g => with_workers (activeBackgroundWorkers g - 1) g).

(** *** The facade reads *)

Definition NaNPoint : option Point := Some (NewPoint NaN NaN).

(** [Position]. *)
Definition Position : M rtkI2C (option Point * float64 * option error) :=
  lastError <- err_Get ;;
  match lastError with
  | Some _ =>
      lastPosition <- gets (fun g => GetLastPosition (lastposition g)) ;;
      match lastPosition with
      | Some _ => ret (lastPosition, f0, None)
      | None => ret (NaNPoint, NaN, lastError)
      end
  | None =>
      ' (position, alt, e) <- ask (nmea_Position env) (E_Sensor OpPosition) ;;
      match e with
      | Some _ =>
          let failed := ret (NaNPoint, NaN, e) in
          match position with
          | Some p =>
              if IsZeroPosition p || IsPositionNaN p
              then
                lastPosition <- gets (fun g => GetLastPosition (lastposition g)) ;;
                match lastPosition with
                | Some _ => ret (lastPosition, alt, None)
                | None => failed
                end
              else failed
          | None => failed
          end
      | None =>
          match position with
          | Some p =>
              if IsPositionNaN p
              then
                lastPosition <- gets (fun g => GetLastPosition (lastposition g)) ;;
                ret (lastPosition, alt, None)
              else ret (position, alt, None)
          | None => panic
          end
      end
  end.

(** The passthrough pattern shared by the other reads: the latched error
    with the zero value, or else the sensor's answer. *)
Definition passthrough {A : Type} (zero : A) (oracle : nat -> A * option error)
           (op : SensorOp) : M rtkI2C (A * option error) :=
  lastError <- err_Get ;;
  match lastError with
  | Some _ => ret (zero, lastError)
  | None => ask oracle (E_Sensor op)
  end.

Definition LinearVelocity : M rtkI2C (Vector * option error) :=
  passthrough Vector_zero (nmea_LinearVelocity env) OpLinearVelocity.

Definition LinearAcceleration : M rtkI2C (Vector * option error) :=
  passthrough Vector_zero (nmea_LinearAcceleration env) OpLinearAcceleration.

Definition AngularVelocity_ : M rtkI2C (AngularVelocity * option error) :=
  passthrough AngularVelocity_zero (nmea_AngularVelocity env) OpAngularVelocity.

Definition CompassHeading : M rtkI2C (float64 * option error) :=
  passthrough f0 (nmea_CompassHeading env) OpCompassHeading.

Definition Orientation_ : M rtkI2C (Orientation * option error) :=
  passthrough NewZeroOrientation (nmea_Orientation env) OpOrientation.

Definition Properties_ : M rtkI2C (option Properties * option error) :=
  passthrough (Some Properties_zero) (nmea_Properties env) OpProperties.

Definition Accuracy : M rtkI2C (list (string * float32) * option error) :=
  passthrough [] (nmea_Accuracy env) OpAccuracy.

(** *** Close *)

(** [g.activeBackgroundWorkers.Wait()]: over only once every worker has
    called [Done]. *)
Definition Wait : M rtkI2C unit :=
  fun g =>
    let g' := workers_run env (List.length (trace g)) g in
    let g'' := with_trace (E_Wait :: trace g') g' in
    if activeBackgroundWorkers g'' =? 0 then Ret tt g'' else Blocked g''.

Definition cancelFunc : M rtkI2C unit :=
  emit E_Cancel ;;
  modify (with_cancelCtx (Some context_Canceled)).

Definition Close : M rtkI2C (option error) :=
  cancelFunc ;;
  e <- ask (nmea_Close env) (E_Sensor OpClose) ;;
  match e with
  | Some _ => ret e
  | None =>
      w <- gets correctionWriter ;;
      e <- match w with
           | Some w' =>
               e <- ask (correctionWriter_Close env) (E_WriterClose w') ;;
               match e with
               | Some _ => ret e
               | None => modify (with_correctionWriter None) ;; ret None
               end
           | None => ret None
           end ;;
      match e with
      | Some _ => ret e
      | None =>
          n <- deref_ntripClient ;;
          match NtripClient n with
          | Some c => emit (E_CloseIdleConnections c) ;; assign_Client None
          | None => ret tt
          end ;;
          n <- deref_ntripClient ;;
          e <- match NtripStream n with
               | Some s =>
                   e <- ask (Stream_Close env) (E_StreamClose s) ;;
                   match e with
                   | Some _ => ret e
                   | None => assign_Stream None ;; ret None
                   end
               | None => ret None
               end ;;
          match e with
          | Some _ => ret e
          | None =>
              Wait ;;
              e <- err_Get ;;
              match e with
              | Some e' =>
                  if negb (errors_Is e' context_Canceled) then ret e
                  else ret None
              | None => ret None
              end
          end
      end
  end.

End RtkI2C.

Arguments mkEnv {Orientation Properties}.
Arguments ntrip_NewClient {Orientation Properties} e _.
Arguments Client_GetStream {Orientation Properties} e _.
Arguments Client_IsCasterAlive {Orientation Properties} e _.
Arguments bus_OpenHandle {Orientation Properties} e _.
Arguments handle_Write {Orientation Properties} e _.
Arguments handle_Close {Orientation Properties} e _.
Arguments Stream_Read {Orientation Properties} e _.
Arguments scanner_NextMessage {Orientation Properties} e _.
Arguments cancel_fired {Orientation Properties} e _.
Arguments nmea_Position {Orientation Properties} e _.
Arguments nmea_LinearVelocity {Orientation Properties} e _.
Arguments nmea_LinearAcceleration {Orientation Properties} e _.
Arguments nmea_AngularVelocity {Orientation Properties} e _.
Arguments nmea_CompassHeading {Orientation Properties} e _.
Arguments nmea_Orientation {Orientation Properties} e _.
Arguments nmea_Properties {Orientation Properties} e _.
Arguments nmea_Accuracy {Orientation Properties} e _.
Arguments nmea_Close {Orientation Properties} e _.
Arguments correctionWriter_Close {Orientation Properties} e _.
Arguments Stream_Close {Orientation Properties} e _.
Arguments workers_run {Orientation Properties} e _.
Arguments ctx_Done {Orientation Properties} env.
Arguments connect_attempts {Orientation Properties} env.
Arguments connect {Orientation Properties} env.
Arguments call_GetStream {Orientation Properties} env.
Arguments getStream_attempts {Orientation Properties} env.
Arguments getStream {Orientation Properties} env.
Arguments call_StreamRead {Orientation Properties} env.
Arguments call_Write {Orientation Properties} env.
Arguments relayCycle {Orientation Properties} PMTKAddChk env.
Arguments relayLoop {Orientation Properties} PMTKAddChk env.
Arguments receiveAndWriteI2C_body {Orientation Properties} PMTKAddChk env.
Arguments receiveAndWriteI2C {Orientation Properties} PMTKAddChk env.
Arguments Position {Orientation Properties} env.
Arguments LinearVelocity {Orientation Properties} env.
Arguments LinearAcceleration {Orientation Properties} env.
Arguments AngularVelocity_ {Orientation Properties} env.
Arguments CompassHeading {Orientation Properties} env.
Arguments Orientation_ {Orientation Properties} NewZeroOrientation env.
Arguments Properties_ {Orientation Properties} Properties_zero env.
Arguments Accuracy {Orientation Properties} env.
Arguments Wait {Orientation Properties} env.
Arguments Close {Orientation Properties} env.

(** ** The virtual-base session of [rtkSerial] *)

(** [strings.TrimPrefix]. *)
Definition TrimPrefix (s p : string) : string :=
  if HasPrefix s p
  then String.substring (String.length p) (String.length s - String.length p) s
  else s.

Definition Conn : Type := nat.

(** [bufio.ReadWriter]: a reader and a writer, each over a connection. *)
Record ReadWriter : Type := NewReadWriter {
  Reader : option Conn;
  Writer : option Conn
}.

Inductive VEvent : Type :=
| V_Log (lvl : Level) (msg : string)
| V_Printf (msg : string)
| V_Dial (network address : string)
| V_Write (c : option Conn) (data : string)
| V_Flush (c : option Conn)
| V_ReadLine (c : option Conn) (line : string) (e : option error)
| V_WriteString (c : option Conn) (data : string)
| V_Read (w : Closer).

(** [rtkSerial], by the fields the session code touches; [urlMutex] is
    [true] while the mutex is held. *)
Record rtkSerial : Type := mkRtkSerial {
  vtrace : list VEvent;
  isConnected : bool;
  rw : option ReadWriter;
  urlMutex : bool;
  vntripClient : option NtripInfo;
  vcorrectionWriter : option Closer
}.

Definition with_vtrace (t : list VEvent) (g : rtkSerial) : rtkSerial :=
  mkRtkSerial t (isConnected g) (rw g) (urlMutex g) (vntripClient g)
              (vcorrectionWriter g).

Definition with_isConnected (b : bool) (g : rtkSerial) : rtkSerial :=
  mkRtkSerial (vtrace g) b (rw g) (urlMutex g) (vntripClient g)
              (vcorrectionWriter g).

Definition with_rw (r : option ReadWriter) (g : rtkSerial) : rtkSerial :=
  mkRtkSerial (vtrace g) (isConnected g) r (urlMutex g) (vntripClient g)
              (vcorrectionWriter g).

Definition with_urlMutex (b : bool) (g : rtkSerial) : rtkSerial :=
  mkRtkSerial (vtrace g) (isConnected g) (rw g) b (vntripClient g)
              (vcorrectionWriter g).

Definition vemit (ev : VEvent) : M rtkSerial unit :=
  modify (fun g => with_vtrace (ev :: vtrace g) g).

Definition vlog (lvl : Level) (msg : string) : M rtkSerial unit :=
  vemit (V_Log lvl msg).

Definition vask {A : Type} (oracle : nat -> A) (ev : A -> VEvent)
  : M rtkSerial A :=
  fun g => let a := oracle (List.length (vtrace g)) in
           Ret a (with_vtrace (ev a :: vtrace g) g).

(** [len(buffer)] in [getGGAMessage]: [make([]byte, 1024)]. *)
Definition bufferLen : nat := 1024.

(** [containsGGAMessage]. *)
Definition containsGGAMessage (data : list byte) : bool :=
  Contains (string_of_list_byte data) "GGA".

(** A status line that completes the handshake. *)
Definition is200OK (line : string) : bool :=
  HasPrefix line "HTTP/1.1 " && Contains line "200 OK".

(** Ghost reading of the trace: a "200 OK" status line was read from the
    connection [c]. *)
Definition okLineOn (c : Conn) (ev : VEvent) : bool :=
  match ev with
  | V_ReadLine (Some c') line None => Nat.eqb c c' && is200OK line
  | _ => false
  end.

Definition handshakeObserved (g : rtkSerial) : bool :=
  match rw g with
  | Some (NewReadWriter (Some c) _) => existsb (okLineOn c) (vtrace g)
  | _ => false
  end.

Definition rwComplete (r : option ReadWriter) : bool :=
  match r with
  | Some (NewReadWriter (Some _) (Some _)) => true
  | _ => false
  end.

Section VirtualBase.

(** [base64.StdEncoding.EncodeToString], of Go's library. *)
Variable base64_EncodeToString : string -> string.

Record VEnv : Type := mkVEnv {
  net_Dial : nat -> option error;
  rw_Write : nat -> option error;
  rw_Flush : nat -> option error;
  rw_ReadLine : nat -> string * option error;
  rw_WriteString : nat -> option error;
  correctionWriter_Read : nat -> list byte * option error
}.

Variable venv : VEnv.

Definition CRLF : string := String "013" (String "010" EmptyString).

Definition connectToVirtualBase : M rtkSerial (option ReadWriter) :=
  held <- gets urlMutex ;;
  if held : bool then block
  else
    modify (with_urlMutex true) ;;
    n <- (fun g => match vntripClient g with
                   | Some n => Ret n g
                   | None => Panic g
                   end) ;;
    let mp := "/" ++ MountPoint n in
    let credentials := Username n ++ ":" ++ Password n in
    let credentialsBase64 := base64_EncodeToString credentials in
    let serverAddr := TrimPrefix (TrimPrefix (URL n) "http://") "https://" in
    conn <- gets (fun g => List.length (vtrace g)) ;;
    e <- vask (net_Dial venv) (fun _ => V_Dial "tcp" serverAddr) ;;
    match e with
    | Some _ =>
        modify (with_isConnected false) ;;
        vlog LError "Failed to connect to VRS server:" ;;
        ret None
    | None =>
        let rw' := NewReadWriter (Some conn) (Some conn) in
        let httpHeaders :=
          "GET " ++ mp ++ " HTTP/1.1" ++ CRLF ++
          "Host: " ++ serverAddr ++ CRLF ++
          "Authorization: Basic " ++ credentialsBase64 ++ CRLF ++
          "Accept: */*" ++ CRLF ++
          "Ntrip-Version: Ntrip/2.0" ++ CRLF ++
          "User-Agent: NTRIP viam" ++ CRLF ++ CRLF in
        e <- vask (rw_Write venv) (fun _ => V_Write (Writer rw') httpHeaders) ;;
        match e with
        | Some _ =>
            modify (with_isConnected false) ;;
            vlog LError "Failed to send HTTP headers:" ;;
            ret None
        | None =>
            e <- vask (rw_Flush venv) (fun _ => V_Flush (Writer rw')) ;;
            match e with
            | Some _ =>
                modify (with_isConnected false) ;;
                vlog LError "failed to write to buffer" ;;
                ret None
            | None =>
                modify (with_urlMutex false) ;;
                vlog LDebug ("request header: " ++ httpHeaders) ;;
                vlog LDebug "HTTP headers sent successfully." ;;
                modify (with_isConnected true) ;;
                ret (Some rw')
            end
        end
    end.

(** [getGGAMessage]: the read loop over a 1024-byte buffer, on fuel;
    [buffer] is [buffer[:totalBytesRead]], and a nil slice is [[]]. *)
Fixpoint getGGAMessage_loop (fuel : nat) (buffer : list byte)
  : M rtkSerial (list byte * option error) :=
  match fuel with
  | O => block
  | S fuel' =>
      w <- gets vcorrectionWriter ;;
      match w with
      | None => panic
      | Some w' =>
          ' (data, e) <- vask (correctionWriter_Read venv) (fun _ => V_Read w') ;;
          match e with
          | Some e' =>
              vlog LError ("Error reading from Ntrip stream: " ++ Error e') ;;
              ret ([], e)
          | None =>
              let buffer' :=
                (buffer ++ firstn (bufferLen - List.length buffer) data)%list in
              if containsGGAMessage buffer' then ret (buffer', None)
              else if (bufferLen <=? List.length buffer')%nat
                   then ret ([], Some (errors_New
                               "GGA message not found in the received data"))
                   else getGGAMessage_loop fuel' buffer'
          end
      end
  end.

Definition getGGAMessage (fuel : nat)
  : M rtkSerial (list byte * option error) :=
  getGGAMessage_loop fuel [].

(** The handshake loop of [sendGGAMessage], on fuel; [inl r] is a
    [return r] inside it, [inr tt] a [break]. *)
Fixpoint handshake_loop (fuel : nat)
  : M rtkSerial (option ReadWriter * option error + unit) :=
  match fuel with
  | O => block
  | S fuel' =>
      vemit (V_Printf "rw is: %v") ;;
      r <- gets rw ;;
      match r with
      | None => panic
      | Some r' =>
          match Reader r', Writer r' with
          | Some _, Some _ =>
              ' (line, e) <- vask (rw_ReadLine venv)
                                  (fun a => V_ReadLine (Reader r') (fst a) (snd a)) ;;
              match e with
              | Some e' =>
                  if error_same e' io_EOF
                  then
                    vlog LDebug "EOF encountered. sending GGA message again" ;;
                    modify (with_rw None) ;;
                    modify (with_isConnected false) ;;
                    ret (inl (None, e))
                  else
                    vlog LError "Failed to read server response:" ;;
                    ret (inl (None, e))
              | None =>
                  if HasPrefix line "HTTP/1.1 "
                  then
                    if Contains line "200 OK"
                    then modify (with_isConnected true) ;; ret (inr tt)
                    else
                      vlog LError "Bad HTTP response" ;;
                      modify (with_isConnected false) ;;
                      ret (inl (None, e))
                  else handshake_loop fuel'
              end
          | _, _ => ret (inr tt)
          end
      end
  end.

Definition sendGGAMessage (fuel : nat)
  : M rtkSerial (option ReadWriter * option error) :=
  connected <- gets isConnected ;;
  (if connected : bool then ret tt
   else
     vlog LError "::::::::^^^^^^ NOT CONNECTED CONNECTING" ;;
     r <- connectToVirtualBase ;;
     modify (with_rw r)) ;;
  h <- handshake_loop fuel ;;
  match h with
  | inl res => ret res
  | inr _ =>
      ' (ggaMessage, e) <- getGGAMessage fuel ;;
      match e with
      | Some _ =>
          vlog LError "Failed to get GGA message" ;;
          ret (None, e)
      | None =>
          let msg := ggaMessage in
          vlog LDebug ("Writing GGA message: " ++ string_of_list_byte msg) ;;
          r <- gets rw ;;
          match r with
          | None => panic
          | Some r' =>
              match Writer r' with
              | None => panic
              | Some _ =>
                  e <- vask (rw_WriteString venv)
                            (fun _ => V_WriteString (Writer r')
                                        (string_of_list_byte msg)) ;;
                  match e with
                  | Some _ =>
                      vlog LError "Failed to send NMEA data:" ;;
                      ret (None, e)
                  | None =>
                      e <- vask (rw_Flush venv) (fun _ => V_Flush (Writer r')) ;;
                      match e with
                      | Some _ =>
                          vlog LError "failed to write to buffer: " ;;
                          ret (None, e)
                      | None =>
                          vlog LDebug "GGA message sent successfully." ;;
                          r <- gets rw ;;
                          ret (r, None)
                      end
                  end
              end
          end
      end
  end.

End VirtualBase.

(** ** Configuration *)

(** [Config]: the attributes of the component. *)
Record Config : Type := mkConfig {
  I2CBus : string;
  I2CAddr : Z;
  I2CBaudRate : Z;
  NtripURL : string;
  NtripConnectAttempts : Z;
  NtripMountpoint : string;
  NtripPass : string;
  NtripUser : string
}.

Section Validation.

(** [utils.NewConfigValidationFieldRequiredError], of [go.viam.com/utils]. *)
Variable NewConfigValidationFieldRequiredError : string -> string -> error.

(** [validateI2C]. *)
Definition validateI2C (cfg : Config) (path : string) : option error :=
  if String.eqb (I2CBus cfg) ""
  then Some (NewConfigValidationFieldRequiredError path "i2c_bus")
  else if I2CAddr cfg =? 0
       then Some (NewConfigValidationFieldRequiredError path "i2c_addr")
       else None.

(** [validateNtrip]. *)
Definition validateNtrip (cfg : Config) (path : string) : option error :=
  if String.eqb (NtripURL cfg) ""
  then Some (NewConfigValidationFieldRequiredError path "ntrip_url")
  else None.

(** [Validate]: the implicit dependencies (a nil slice with an error, the
    empty slice otherwise) and the error. *)
Definition Validate (cfg : Config) (path : string)
  : option (list string) * option error :=
  match validateI2C cfg path with
  | Some e => (None, Some e)
  | None =>
      match validateNtrip cfg path with
      | Some e => (None, Some e)
      | None => (Some [], None)
      end
  end.

End Validation.

(** Ghost readings of the trace: how often the caster was asked for a
    stream, and for a client. *)
Definition isGetStream (ev : Event) : bool :=
  match ev with
  | E_GetStream _ _ => true
  | _ => false
  end.

Definition streamRequests (t : list Event) : nat :=
  List.length (filter isGetStream t).

Definition isNewClient (ev : Event) : bool :=
  match ev with
  | E_NewClient _ _ _ => true
  | _ => false
  end.

Definition clientRequests (t : list Event) : nat :=
  List.length (filter isNewClient t).

(** The three configuration commands of [receiveAndWriteI2C]. *)
Definition cmd251 (PMTKAddChk : list byte -> list byte) (baud : Z) : list byte :=
  PMTKAddChk (list_byte_of_string ("PMTK251," ++ itoa baud)).

Definition cmd314 (PMTKAddChk : list byte -> list byte) : list byte :=
  PMTKAddChk (list_byte_of_string
                "PMTK314,1,1,1,1,1,0,0,0,0,0,0,0,0,0,0,0,0,0,0").

Definition cmd220 (PMTKAddChk : list byte -> list byte) : list byte :=
  PMTKAddChk (list_byte_of_string "PMTK220,1000").

(** The receiver once [receiveAndWriteI2C] has probed the caster [c] after
    [connect] left it as [g1]. *)
Definition probed {Orientation Properties : Type}
           (env : Env Orientation Properties) (c : Client) (url : string)
           (g1 : rtkI2C) : rtkI2C :=
  let g2 := with_trace (E_IsCasterAlive c :: trace g1) g1 in
  if Client_IsCasterAlive env (List.length (trace g1)) then g2
  else with_trace (E_Log LInfo ("caster " ++ url ++ " seems to be down")
                   :: trace g2) g2.

(** The receiver once the handle [h] is open and the three commands have
    been sent, the baud-rate command having failed. *)
Definition configuredDespiteBaud (PMTKAddChk : list byte -> list byte)
           (h : Handle) (g2 : rtkI2C) : rtkI2C :=
  with_trace (E_Write h (cmd220 PMTKAddChk)
              :: E_Write h (cmd314 PMTKAddChk)
              :: E_Log LDebug "Failed to set baud rate"
              :: E_Write h (cmd251 PMTKAddChk (wbaud g2))
              :: E_OpenHandle (addr g2)
              :: trace g2) g2.

(** ** Scenarios

    The fakes of the package's tests, used to run the model on concrete
    inputs. *)

Definition P_NY : Point := NewPoint f40_7 fm73_98.
Definition P_zero : Point := NewPoint f0 f0.
Definition P_NaN : Point := NewPoint NaN NaN.

(** A point the facade may cache: neither (0,0) nor NaN. *)
Definition validPoint (p : Point) : bool :=
  negb (IsZeroPosition p) && negb (IsPositionNaN p).

Definition testInfo : NtripInfo :=
  mkNtripInfo "http://fakeurl" "user" "pwd" "NYC" None None 10.

(** A receiver as [makeRTKI2C] leaves it, before [start]. *)
Definition newRtkI2C : rtkI2C :=
  mkRtkI2C [] None 0 (Some testInfo) false (NewLastError 1 1)
           NewLastPosition None 115200 66.

(** A world in which everything works and the sensor is the test's
    [CustomMovementSensor] over [fake.MovementSensor], answering [pos]. *)
Definition fakeEnv (pos : option Point * float64 * option error)
  : Env unit unit :=
  mkEnv (fun _ => (Some 1%nat, None))
        (fun _ => (Some 1%nat, None))
        (fun _ => true)
        (fun _ => (1%nat, None))
        (fun _ => None)
        (fun _ => None)
        (fun _ => ([], None))
        (fun _ => (Some 1%nat, None))
        (fun _ => false)
        (fun _ => pos)
        (fun _ => (mkVector f0 f5_4 f0, None))
        (fun _ => (Vector_zero, None))
        (fun _ => (AngularVelocity_zero, None))
        (fun _ => (f0, None))
        (fun _ => (tt, None))
        (fun _ => (Some tt, None))
        (fun _ => ([], None))
        (fun _ => None)
        (fun _ => None)
        (fun _ => None)
        (fun _ g => with_workers 0 g).

(** The fake world with one oracle replaced. *)
Definition on_ntrip_NewClient (f : nat -> option Client * option error)
           (env : Env unit unit) : Env unit unit :=
  mkEnv f (Client_GetStream env) (Client_IsCasterAlive env)
        (bus_OpenHandle env) (handle_Write env) (handle_Close env)
        (Stream_Read env) (scanner_NextMessage env) (cancel_fired env)
        (nmea_Position env) (nmea_LinearVelocity env)
        (nmea_LinearAcceleration env) (nmea_AngularVelocity env)
        (nmea_CompassHeading env) (nmea_Orientation env)
        (nmea_Properties env) (nmea_Accuracy env) (nmea_Close env)
        (correctionWriter_Close env) (Stream_Close env) (workers_run env).

Definition on_Client_GetStream (f : nat -> option Stream * option error)
           (env : Env unit unit) : Env unit unit :=
  mkEnv (ntrip_NewClient env) f (Client_IsCasterAlive env)
        (bus_OpenHandle env) (handle_Write env) (handle_Close env)
        (Stream_Read env) (scanner_NextMessage env) (cancel_fired env)
        (nmea_Position env) (nmea_LinearVelocity env)
        (nmea_LinearAcceleration env) (nmea_AngularVelocity env)
        (nmea_CompassHeading env) (nmea_Orientation env)
        (nmea_Properties env) (nmea_Accuracy env) (nmea_Close env)
        (correctionWriter_Close env) (Stream_Close env) (workers_run env).

Definition on_bus_OpenHandle (f : nat -> Handle * option error)
           (env : Env unit unit) : Env unit unit :=
  mkEnv (ntrip_NewClient env) (Client_GetStream env)
        (Client_IsCasterAlive env) f (handle_Write env) (handle_Close env)
        (Stream_Read env) (scanner_NextMessage env) (cancel_fired env)
        (nmea_Position env) (nmea_LinearVelocity env)
        (nmea_LinearAcceleration env) (nmea_AngularVelocity env)
        (nmea_CompassHeading env) (nmea_Orientation env)
        (nmea_Properties env) (nmea_Accuracy env) (nmea_Close env)
        (correctionWriter_Close env) (Stream_Close env) (workers_run env).

Definition on_scanner_NextMessage (f : nat -> option Message * option error)
           (env : Env unit unit) : Env unit unit :=
  mkEnv (ntrip_NewClient env) (Client_GetStream env)
        (Client_IsCasterAlive env) (bus_OpenHandle env) (handle_Write env)
        (handle_Close env) (Stream_Read env) f (cancel_fired env)
        (nmea_Position env) (nmea_LinearVelocity env)
        (nmea_LinearAcceleration env) (nmea_AngularVelocity env)
        (nmea_CompassHeading env) (nmea_Orientation env)
        (nmea_Properties env) (nmea_Accuracy env) (nmea_Close env)
        (correctionWriter_Close env) (Stream_Close env) (workers_run env).

Definition on_nmea_Close (f : nat -> option error)
           (env : Env unit unit) : Env unit unit :=
  mkEnv (ntrip_NewClient env) (Client_GetStream env)
        (Client_IsCasterAlive env) (bus_OpenHandle env) (handle_Write env)
        (handle_Close env) (Stream_Read env) (scanner_NextMessage env)
        (cancel_fired env) (nmea_Position env) (nmea_LinearVelocity env)
        (nmea_LinearAcceleration env) (nmea_AngularVelocity env)
        (nmea_CompassHeading env) (nmea_Orientation env)
        (nmea_Properties env) (nmea_Accuracy env) f
        (correctionWriter_Close env) (Stream_Close env) (workers_run env).

Definition cachedNY (g : rtkI2C) : rtkI2C :=
  mkRtkI2C (trace g) (cancelCtx g) (activeBackgroundWorkers g) (ntripClient g)
           (ntripStatus g) (err g)
           (SetLastPosition (Some P_NY) (lastposition g))
           (correctionWriter g) (wbaud g) (addr g).

Definition latched (e : error) (g : rtkI2C) : rtkI2C :=
  with_err (LastError_Set (Some e) (err g)) g.

(** The receiver once a call to the sensor has been recorded. *)
Definition consulted (op : SensorOp) (g : rtkI2C) : rtkI2C :=
  with_trace (E_Sensor op :: trace g) g.

(** The receiver at the point of a turn of the relay loop where the scanner
    has just failed without a message: context polled, handle opened,
    message asked for, status dropped, reconnection announced. *)
Definition scannerFailed (scanner : Scanner) (g : rtkI2C) : rtkI2C :=
  with_trace (E_Log LDebug "No message... reconnecting to stream..."
              :: E_NextMessage (sc_reader scanner)
              :: E_OpenHandle (addr g)
              :: E_Done
              :: trace g)
             (with_ntripStatus false g).

(** A turn of the relay loop that is fatal with [e]: the turn returns, [e]
    is what LastError holds afterwards, and the loop is over. *)
Definition fatalTurn {Orientation Properties : Type}
           (PMTKAddChk : list byte -> list byte)
           (env : Env Orientation Properties)
           (err0 : option error) (scanner : Scanner) (g : rtkI2C)
           (e : error) : Prop :=
  exists g',
    relayCycle PMTKAddChk env err0 scanner g = Ret Return g'
    /\ LastError_Get (err g') = Some e
    /\ forall fuel,
        relayLoop PMTKAddChk env (S fuel) err0 scanner g = Ret tt g'.

(** A turn of the relay loop that recovers: nothing is latched by it, the
    status is up again, a new scanner frames the stream [s] that [getStream]
    has just stored, and the loop goes on to its next turn with it. *)
Definition recoveredTurn {Orientation Properties : Type}
           (PMTKAddChk : list byte -> list byte)
           (env : Env Orientation Properties)
           (err0 : option error) (scanner : Scanner) (g : rtkI2C)
           (s : Stream) : Prop :=
  exists g',
    relayCycle PMTKAddChk env err0 scanner g
    = Ret (Continue (NewScanner (Some s))) g'
    /\ err g' = err g
    /\ ntripStatus g' = true
    /\ (exists info, ntripClient g' = Some info /\ NtripStream info = Some s)
    /\ forall fuel,
        relayLoop PMTKAddChk env (S fuel) err0 scanner g
        = relayLoop PMTKAddChk env fuel err0 (NewScanner (Some s)) g'.

(** What [Close] reports of the error the relay task left behind: nothing
    when it is a cancellation. *)
Definition reportedOnClose (g : rtkI2C) : option error :=
  match LastError_Get (err g) with
  | Some e => if errors_Is e context_Canceled then None else Some e
  | None => None
  end.

(** The receiver when a wait entered at [g] is over. *)
Definition waited {Orientation Properties : Type}
           (env : Env Orientation Properties) (g : rtkI2C) : rtkI2C :=
  let g' := workers_run env (List.length (trace g)) g in
  with_trace (E_Wait :: trace g') g'.

(** A caster that accepts the connection and the request and then answers
    every read with [line] and [e]. *)
Definition casterAnswering (line : string) (e : option error) : VEnv :=
  mkVEnv (fun _ => None) (fun _ => None) (fun _ => None)
         (fun _ => (line, e)) (fun _ => None)
         (fun _ => (list_byte_of_string "$GPGGA,172814.0,3723.46587704,N", None)).

(** An [rtkSerial] that has not connected yet. *)
Definition newRtkSerial : rtkSerial :=
  mkRtkSerial [] false None false (Some testInfo) (Some 1%nat).

(** Stand-in for base64 where the text of the header does not matter. *)
Definition plainCredentials (s : string) : string := s.

(** The sensor answers of [TestReadings], and one with an error. *)
Definition envNormal : Env unit unit := fakeEnv (Some P_NY, f50_5, None).
Definition envZero : Env unit unit := fakeEnv (Some P_zero, f0, None).
Definition envNaN : Env unit unit := fakeEnv (Some P_NaN, NaN, None).
Definition envZeroFailing : Env unit unit :=
  fakeEnv (Some P_zero, f50_5, Some (errors_New "no fix yet")).

(** A receiver whose session holds a client and an open stream, relaying. *)
Definition streamingI2C : rtkI2C :=
  with_ntripStatus true
    (with_ntripClient
       (Some (set_Stream (Some 0%nat) (set_Client (Some 1%nat) testInfo)))
       newRtkI2C).

Definition noSuchHost : error :=
  errors_New "dial tcp: lookup fakeurl: no such host".

(** A caster that can be reached from the third attempt on only. *)
Definition envLateCaster : Env unit unit :=
  on_ntrip_NewClient
    (fun t => if (t <? 3)%nat then (None, Some noSuchHost)
              else (Some 7%nat, None))
    envNormal.

Definition icyError : error :=
  errors_New "net/http: malformed HTTP version ICY 200 OK".

(** A legacy caster, answering every stream request in the ICY dialect. *)
Definition envLegacyCaster : Env unit unit :=
  on_Client_GetStream (fun _ => (None, Some icyError)) envNormal.

(** A caster whose host cannot be resolved. *)
Definition envNoHost : Env unit unit :=
  on_Client_GetStream (fun _ => (None, Some noSuchHost)) envNormal.

(** A stream that has lost its message boundary. *)
Definition envDesync : Env unit unit :=
  on_scanner_NextMessage (fun _ => (None, Some io_EOF)) envNormal.

(** An I2C bus that cannot be opened. *)
Definition busError : error := errors_New "i2c: bus busy".
Definition envBusDown : Env unit unit :=
  on_bus_OpenHandle (fun _ => (0%nat, Some busError)) envNormal.

(** An NMEA sensor that fails to close. *)
Definition sensorCloseError : error := errors_New "sensor close failed".
Definition envSensorStuck : Env unit unit :=
  on_nmea_Close (fun _ => Some sensorCloseError) envNormal.

Definition relayError : error := errors_New "relay failed".

(** A caster that is never reached, and a receiver built as in
    [TestConnect], without a session. *)
Definition envNoCaster : Env unit unit :=
  on_ntrip_NewClient (fun _ => (None, Some noSuchHost)) envNormal.

Definition bareRtkI2C : rtkI2C :=
  mkRtkI2C [] None 0 None false (NewLastError 1 1) NewLastPosition None 0 0.

(** Stand-in for [movementsensor.PMTKAddChk] where the bytes do not matter. *)
Definition noChecksum (data : list byte) : list byte := data.

Definition timeoutError : error := errors_New "i/o timeout".

(** The configuration of [TestValidateRTK], and the stand-in for the
    validation error of [go.viam.com/utils]. *)
Definition testConfig : Config :=
  mkConfig "bus1" 44 0 "http//fakeurl" 10 "NYC" "somepass" "someuser".

Definition fieldRequired (path field : string) : error :=
  errors_New (path ++ ": " ++ field ++ " is required").

(** A receiver whose context has been cancelled. *)
Definition cancelledI2C : rtkI2C :=
  with_cancelCtx (Some context_Canceled) streamingI2C.

Definition on_handle_Write (f : nat -> option error)
           (env : Env unit unit) : Env unit unit :=
  mkEnv (ntrip_NewClient env) (Client_GetStream env)
        (Client_IsCasterAlive env) (bus_OpenHandle env) f (handle_Close env)
        (Stream_Read env) (scanner_NextMessage env) (cancel_fired env)
        (nmea_Position env) (nmea_LinearVelocity env)
        (nmea_LinearAcceleration env) (nmea_AngularVelocity env)
        (nmea_CompassHeading env) (nmea_Orientation env)
        (nmea_Properties env) (nmea_Accuracy env) (nmea_Close env)
        (correctionWriter_Close env) (Stream_Close env) (workers_run env).

Definition on_correctionWriter_Close (f : nat -> option error)
           (env : Env unit unit) : Env unit unit :=
  mkEnv (ntrip_NewClient env) (Client_GetStream env)
        (Client_IsCasterAlive env) (bus_OpenHandle env) (handle_Write env)
        (handle_Close env) (Stream_Read env) (scanner_NextMessage env)
        (cancel_fired env) (nmea_Position env) (nmea_LinearVelocity env)
        (nmea_LinearAcceleration env) (nmea_AngularVelocity env)
        (nmea_CompassHeading env) (nmea_Orientation env)
        (nmea_Properties env) (nmea_Accuracy env) (nmea_Close env) f
        (Stream_Close env) (workers_run env).

(** A caster that grants the stream on the third request only; the request
    numbered [j] of a call of [getStream] on a fresh receiver is the event
    numbered [2 * j + 2]. *)
Definition envLateStream : Env unit unit :=
  on_Client_GetStream
    (fun t => if (t <? 6)%nat then (None, Some noSuchHost)
              else (Some 9%nat, None))
    envNormal.

(** A sensor that reports an error with a usable position. *)
Definition envSensorFailing : Env unit unit :=
  fakeEnv (Some P_NY, f50_5, Some (errors_New "no fix yet")).

(** A receiver with a correction writer, and a writer that cannot be
    closed. *)
Definition writingI2C : rtkI2C :=
  with_correctionWriter (Some 5%nat) streamingI2C.

Definition writerCloseError : error := errors_New "writer close failed".

Definition envWriterStuck : Env unit unit :=
  on_correctionWriter_Close (fun _ => Some writerCloseError) envNormal.

(** A receiver that refuses the baud-rate command (the fifth event of the
    task on a fresh receiver) and the NMEA-output command (the seventh). *)
Definition baudError : error := errors_New "baud rate refused".
Definition outputError : error := errors_New "NMEA output refused".

Definition envCommandsRefused : Env unit unit :=
  on_handle_Write
    (fun t => if (t =? 5)%nat then Some baudError
              else if (t =? 7)%nat then Some outputError else None)
    envNormal.

(** A caster that cannot be dialled, and one that refuses the request. *)
Definition casterUnreachable : VEnv :=
  mkVEnv (fun _ => Some noSuchHost) (fun _ => None) (fun _ => None)
         (fun _ => ("", None)) (fun _ => None) (fun _ => ([], None)).

Definition casterRefusing : VEnv :=
  casterAnswering "HTTP/1.1 401 Unauthorized" None.

(** * Properties *)

Section FacadeReads.

Context {Orientation Properties : Type}.
Variable NewZeroOrientation : Orientation.
Variable Properties_zero : Properties.
Variable env : Env Orientation Properties.


Lemma passthrough_clear {A : Type} (zero : A) oracle op g :
  LastError_Get (err g) = None ->
  passthrough zero oracle op g
  = Ret (oracle (List.length (trace g))) (consulted op g).
Proof.
  intros H. unfold passthrough, bind, err_Get, gets, ret, ask.
  now rewrite H.
Qed.

(** C1 (as amended).  With nothing latched, a fix of exactly (0,0) at
    altitude 0 with a nil error is returned as it is, whether or not a
    point is cached: on this path [Position] replaces NaN fixes only.
    [LinearVelocity] hands the sensor's answer through. *)
Theorem C1_zero_fix_returned_unchanged (g : rtkI2C) (P : Point) :
  LastError_Get (err g) = None ->
  nmea_Position env (List.length (trace g)) = (Some P_zero, f0, None) ->
  GetLastPosition (lastposition g) = Some P ->
  Position env g = Ret (Some P_zero, f0, None) (consulted OpPosition g)
  /\ LinearVelocity env g
     = Ret (nmea_LinearVelocity env (List.length (trace g)))
           (consulted OpLinearVelocity g).
Proof.
  intros Hle Hfix _. split.
  - unfold Position, bind, err_Get, gets, ask, ret.
    rewrite Hle, Hfix. reflexivity.
  - now apply passthrough_clear.
Qed.


(** C4 (as amended).  With nothing latched, the normal fix (40.7, -73.98)
    at altitude 50.5 is returned exactly, with a nil error; the cache is
    left as it was ([Position] never writes it). *)
Theorem C4_normal_fix_returned_cache_untouched (g : rtkI2C) :
  LastError_Get (err g) = None ->
  nmea_Position env (List.length (trace g)) = (Some P_NY, f50_5, None) ->
  exists g',
    Position env g = Ret (Some P_NY, f50_5, None) g'
    /\ lastposition g' = lastposition g.
Proof.
  intros Hle Hfix. exists (consulted OpPosition g). split; [|reflexivity].
  unfold Position, bind, err_Get, gets, ask, ret.
  rewrite Hle, Hfix. reflexivity.
Qed.

(** C5.  With nothing latched and P = (40.7, -73.98) cached, the fix
    (NaN, NaN) at altitude NaN with a nil error comes back as P, with the
    sensor's NaN altitude and a nil error. *)
Theorem C5_NaN_fix_replaced_altitude_kept (g : rtkI2C) :
  LastError_Get (err g) = None ->
  nmea_Position env (List.length (trace g)) = (Some P_NaN, NaN, None) ->
  GetLastPosition (lastposition g) = Some P_NY ->
  exists alt,
    Position env g = Ret (Some P_NY, alt, None) (consulted OpPosition g)
    /\ IsNaN alt = true.
Proof.
  intros Hle Hfix Hc. exists NaN. split; [|reflexivity].
  unfold Position, bind, err_Get, gets, ask, ret.
  rewrite Hle, Hfix. cbn. unfold consulted. cbn. now rewrite Hc.
Qed.

(** C9.  With nothing latched, when the sensor returns a non-nil error
    [e] together with a non-nil point that is (0,0) or has a NaN
    coordinate, and a point P is cached, [Position] returns P with the
    sensor's altitude and a nil error: [e] is dropped. *)
Theorem C9_sensor_error_suppressed
        (g : rtkI2C) (p P : Point) (alt : float64) (e : error) :
  LastError_Get (err g) = None ->
  nmea_Position env (List.length (trace g)) = (Some p, alt, Some e) ->
  (feq (Lat p) f0 = true /\ feq (Lng p) f0 = true)
  \/ IsNaN (Lat p) = true \/ IsNaN (Lng p) = true ->
  GetLastPosition (lastposition g) = Some P ->
  Position env g = Ret (Some P, alt, None) (consulted OpPosition g).
Proof.
  intros Hle Hfix Hdeg Hc.
  assert (Hd : IsZeroPosition p || IsPositionNaN p = true).
  { unfold IsZeroPosition, IsPositionNaN.
    destruct Hdeg as [[H1 H2] | [H | H]]; rewrite ?H1, ?H2, ?H; cbn;
      rewrite ?orb_true_r; reflexivity. }
  unfold Position, bind, err_Get, gets, ask, ret.
  rewrite Hle, Hfix. cbn. rewrite Hd. cbn. now rewrite Hc.
Qed.

End FacadeReads.

(** Stepping through the monad. *)
Ltac go :=
  cbv beta delta [bind ret gets modify ask logf emit err_Get err_Set
                  assign_Client assign_Stream deref_ntripClient panic block];
  cbn.

Section NtripSession.

Context {Orientation Properties : Type}.
Variable env : Env Orientation Properties.

Lemma connect_attempts_first_success (left : nat) :
  forall (k : nat) (g : rtkI2C) (info : NtripInfo) (c : option Client)
         (casterAddr user pwd : string),
    ntripClient g = Some info ->
    (k < left)%nat ->
    (forall j, (j < k)%nat ->
               snd (ntrip_NewClient env (List.length (trace g) + j)) <> None) ->
    ntrip_NewClient env (List.length (trace g) + k) = (c, None) ->
    exists g',
      connect_attempts env left casterAddr user pwd g
      = Ret (Some (LastError_Get (err g))) g'
      /\ ntripClient g' = Some (set_Client c info)
      /\ err g' = err g.
Proof.
  induction left as [|left IH]; intros k g info c a u p Hn Hk Hfail Hok;
    [lia|].
  destruct k as [|k].
  - rewrite Nat.add_0_r in Hok.
    cbn [connect_attempts]. go. rewrite Hok. go. rewrite Hn. go.
    eexists. split; [reflexivity|]. split; reflexivity.
  - cbn [connect_attempts]. go.
    destruct (ntrip_NewClient env (List.length (trace g))) as [c0 [e0|]] eqn:E.
    + apply (IH k (with_trace (E_NewClient a u p :: trace g) g) info c a u p).
      * exact Hn.
      * lia.
      * intros j Hj. cbn. rewrite <- Nat.add_succ_r. apply Hfail. lia.
      * cbn. rewrite <- Nat.add_succ_r. exact Hok.
    + exfalso. apply (Hfail 0%nat); [lia|].
      rewrite Nat.add_0_r, E. reflexivity.
Qed.

(** C10.  When the attempt numbered [k] (from 0) is the first on which
    [ntrip.NewClient] returns a nil error, [connect] stores the client it
    got and returns what the LastError slot holds at that moment: nil when
    nothing is latched, the latched error otherwise.  The receiver's
    [ntripClient] is non-nil, as [Reconfigure] leaves it. *)
Theorem C10_connect_returns_latched_slot
        (g : rtkI2C) (info : NtripInfo) (c : option Client)
        (casterAddr user pwd : string) (maxAttempts : Z) (k : nat) :
  ntripClient g = Some info ->
  (k < Z.to_nat maxAttempts)%nat ->
  (forall j, (j < k)%nat ->
             snd (ntrip_NewClient env (S (List.length (trace g)) + j)) <> None) ->
  ntrip_NewClient env (S (List.length (trace g)) + k) = (c, None) ->
  exists g',
    connect env casterAddr user pwd maxAttempts g
    = Ret (LastError_Get (err g)) g'
    /\ ntripClient g' = Some (set_Client c info)
    /\ err g' = err g.
Proof.
  intros Hn Hk Hfail Hok.
  destruct (connect_attempts_first_success (Z.to_nat maxAttempts) k
              (with_trace (E_Log LInfo "starting connect" :: trace g) g)
              info c casterAddr user pwd Hn Hk Hfail Hok)
    as (g' & Hrun & Hc & He).
  exists g'. split; [|split; assumption].
  unfold connect. go. cbn in Hrun. rewrite Hrun. reflexivity.
Qed.

End NtripSession.

Section StreamSession.

Context {Orientation Properties : Type}.
Variable env : Env Orientation Properties.

(** Polling the context touches the trace and the context only. *)
Lemma ctx_Done_frame (g : rtkI2C) :
  exists b g',
    ctx_Done env g = Ret b g'
    /\ err g' = err g
    /\ ntripClient g' = ntripClient g
    /\ lastposition g' = lastposition g
    /\ trace g' = E_Done :: trace g.
Proof.
  unfold ctx_Done. go.
  destruct (cancelCtx g); go.
  - eexists _, _. repeat split.
  - destruct (cancel_fired env (List.length (trace g))); go;
      eexists _, _; repeat split.
Qed.

(** The attempt loop leaves the error slot and the session alone; if it
    ends with an error that it did not start with, the session is non-nil. *)
Lemma getStream_attempts_frame (left : nat) :
  forall (mp : string) (rc0 : option Stream) (e0 : option error)
         (g g1 : rtkI2C) r,
    getStream_attempts env left mp rc0 e0 g = Ret r g1 ->
    err g1 = err g
    /\ ntripClient g1 = ntripClient g
    /\ (forall rc e, r = inr (rc, Some e) ->
                     e0 = Some e \/ ntripClient g <> None).
Proof.
  induction left as [|left IH]; intros mp rc0 e0 g g1 r Hrun.
  - cbn in Hrun. injection Hrun as <- <-.
    repeat split. intros rc e [= -> ->]. now left.
  - cbn [getStream_attempts] in Hrun.
    destruct (ctx_Done_frame g) as (b & g' & Hd & He & Hn & _ & _).
    unfold bind at 1 in Hrun. rewrite Hd in Hrun.
    destruct b.
    + go. cbn in Hrun. injection Hrun as <- <-.
      repeat split; try assumption. intros rc e [=].
    + unfold call_GetStream in Hrun. go. revert Hrun. go.
      destruct (ntripClient g') as [n|] eqn:En; [|discriminate].
      destruct (NtripClient n) as [c|]; [|discriminate].
      go.
      destruct (Client_GetStream env (List.length (trace g')))
        as [rc' [e'|]] eqn:Eg; intros Hrun.
      * apply IH in Hrun. cbn in Hrun. destruct Hrun as (He1 & Hn1 & Hr).
        split; [congruence|]. split; [congruence|].
        intros rc e Heq. right. rewrite <- Hn. discriminate.
      * injection Hrun as <- <-. cbn.
        split; [assumption|]. split; [congruence|].
        intros rc e [=].
Qed.

(** C7.  When the attempt loop of [getStream] ends with a non-nil error
    [e] (and the stream value [rc] that came with it): if [e]'s message
    contains "ICY" the error is logged as a warning and nothing more, [rc]
    is stored in the session's stream field and [getStream] returns what the
    LastError slot holds, not [e]; otherwise [e] is logged as an error and
    returned, the session being left as it was. *)
Theorem C7_getStream_tolerates_ICY
        (g g1 : rtkI2C) (mountPoint : string) (maxAttempts : Z)
        (rc : option Stream) (e : error) :
  getStream_attempts env (Z.to_nat maxAttempts) mountPoint None None
    (with_trace (E_Log LDebug "Getting NTRIP stream" :: trace g) g)
  = Ret (inr (rc, Some e)) g1 ->
  (Contains (Error e) "ICY" = true ->
   exists info g',
     ntripClient g = Some info
     /\ getStream env mountPoint maxAttempts g = Ret (LastError_Get (err g)) g'
     /\ ntripClient g' = Some (set_Stream rc info)
     /\ err g' = err g
     /\ trace g' = E_Log LDebug "Connected to stream"
                   :: E_Log LWarn ("Detected old HTTP protocol: " ++ Error e)
                   :: trace g1)
  /\ (Contains (Error e) "ICY" = false ->
      exists g',
        getStream env mountPoint maxAttempts g = Ret (Some e) g'
        /\ ntripClient g' = ntripClient g
        /\ err g' = err g
        /\ trace g' = E_Log LError ("Can't connect to NTRIP stream: " ++ Error e)
                      :: trace g1).
Proof.
  intros Hloop.
  destruct (getStream_attempts_frame _ _ _ _ _ _ _ Hloop) as (He & Hn & Hr).
  cbn in He, Hn.
  split; intros Hicy.
  - destruct (Hr rc e eq_refl) as [[=]|Hnn]. cbn in Hnn.
    destruct (ntripClient g) as [info|] eqn:En; [|contradiction].
    exists info. eexists. split; [reflexivity|].
    split.
    + unfold getStream. go. rewrite Hloop. unfold getStream_finish.
      rewrite Hicy. go. rewrite Hn. go. rewrite He. reflexivity.
    + cbn. repeat split. assumption.
  - eexists. split.
    + unfold getStream. go. rewrite Hloop. unfold getStream_finish.
      rewrite Hicy. go. reflexivity.
    + cbn. repeat split; assumption.
Qed.

End StreamSession.

Section RelayLoop.

Context {Orientation Properties : Type}.
Variable PMTKAddChk : list byte -> list byte.
Variable env : Env Orientation Properties.

Lemma getStream_frame (g g' : rtkI2C) (mp : string) (n : Z) r :
  getStream env mp n g = Ret r g' -> err g' = err g.
Proof.
  unfold getStream. go.
  destruct (getStream_attempts env (Z.to_nat n) mp None None
              (with_trace (E_Log LDebug "Getting NTRIP stream" :: trace g) g))
    as [[res|[rc e]] g1| |] eqn:Hloop; try discriminate.
  - apply getStream_attempts_frame in Hloop. destruct Hloop as (He & _).
    intros [= <- <-]. exact He.
  - apply getStream_attempts_frame in Hloop. destruct Hloop as (He & _).
    cbn in He. unfold getStream_finish.
    destruct e as [e|].
    + destruct (Contains (Error e) "ICY"); go.
      * destruct (ntripClient g1); [|discriminate]. intros [= <- <-]. exact He.
      * intros [= <- <-]. exact He.
    + go. destruct (ntripClient g1); [|discriminate]. intros [= <- <-]. exact He.
Qed.

#[local] Arguments getStream : simpl never.

Lemma relayLoop_turn (fuel : nat) (err0 : option error) (scanner : Scanner)
      (g g' : rtkI2C) (c : ctl) :
  ntripStatus g = true ->
  relayCycle PMTKAddChk env err0 scanner g = Ret c g' ->
  relayLoop PMTKAddChk env (S fuel) err0 scanner g
  = match c with
    | Return => Ret tt g'
    | Continue scanner' => relayLoop PMTKAddChk env fuel err0 scanner' g'
    end.
Proof.
  intros Hs Hc. cbn [relayLoop]. go. rewrite Hs. cbn.
  rewrite Hc. now destruct c.
Qed.

Lemma fatalTurn_intro (err0 : option error) (scanner : Scanner)
      (g g' : rtkI2C) (e : error) :
  ntripStatus g = true ->
  relayCycle PMTKAddChk env err0 scanner g = Ret Return g' ->
  LastError_Get (err g') = Some e ->
  fatalTurn PMTKAddChk env err0 scanner g e.
Proof.
  intros Hs Hc He. exists g'. split; [assumption|]. split; [assumption|].
  intros fuel. now rewrite (relayLoop_turn fuel _ _ _ _ _ Hs Hc).
Qed.

(** Entering a turn that finds the context live. *)
Ltac enter_turn Hc Hf :=
  unfold relayCycle, ctx_Done; go; rewrite Hf; go; rewrite Hc; go.

(** Replaying a known run of [getStream] on the receiver of the goal. *)
Ltac reopen Hg :=
  match goal with
  | |- context [getStream ?e ?a ?b ?st] =>
      let H := fresh "Hg" in
      assert (H : getStream e a b st = _) by exact Hg;
      rewrite H; clear H
  end.

(** C2.  In a turn of the relay loop that finds the context live: when the
    scanner fails without a message and the stream is reopened (getStream,
    first read and write all succeed), the turn recovers and the loop goes
    on with a scanner rebuilt over the new stream; whereas a failure to open
    the handle, to reopen the stream, to read its first bytes, to write
    them, or to close the handle is fatal: that error is latched in
    LastError and the task's loop is over. *)
Theorem C2_relay_turn_recovers_or_is_fatal
        (g : rtkI2C) (err0 : option error) (scanner : Scanner) :
  ntripStatus g = true ->
  cancelCtx g = None ->
  cancel_fired env (List.length (trace g)) = false ->
  let t := List.length (trace g) in
  (* opening the handle fails *)
  (forall h e,
      bus_OpenHandle env (S t) = (h, Some e) ->
      fatalTurn PMTKAddChk env err0 scanner g e)
  /\
  (* no scanner failure, but closing the handle fails *)
  (forall h msg e,
      bus_OpenHandle env (S t) = (h, None) ->
      scanner_NextMessage env (S (S t)) = (msg, None) ->
      handle_Close env (S (S (S t))) = Some e ->
      fatalTurn PMTKAddChk env err0 scanner g e)
  /\
  (* the scanner fails without a message *)
  (forall h e info r g4,
      bus_OpenHandle env (S t) = (h, None) ->
      scanner_NextMessage env (S (S t)) = (None, Some e) ->
      ntripClient g = Some info ->
      getStream env (MountPoint info) (MaxConnectAttempts info)
                (scannerFailed scanner g) = Ret r g4 ->
      let t4 := List.length (trace g4) in
      (* reopening the stream fails *)
      (forall e', r = Some e' -> fatalTurn PMTKAddChk env err0 scanner g e')
      /\
      (forall info4 s,
          r = None ->
          ntripClient g4 = Some info4 ->
          NtripStream info4 = Some s ->
          (* the first read of the new stream fails *)
          (forall buf e',
              Stream_Read env t4 = (buf, Some e') ->
              fatalTurn PMTKAddChk env err0 scanner g e')
          /\
          (* writing the first bytes to the handle fails *)
          (forall buf e',
              Stream_Read env t4 = (buf, None) ->
              handle_Write env (S t4) = Some e' ->
              fatalTurn PMTKAddChk env err0 scanner g e')
          /\
          (* the stream is reopened *)
          (forall buf,
              Stream_Read env t4 = (buf, None) ->
              handle_Write env (S t4) = None ->
              recoveredTurn PMTKAddChk env err0 scanner g s))).
Proof.
  intros Hs Hc Hf t. subst t.
  split; [|split].
  - intros h e Ho. eapply fatalTurn_intro; [exact Hs| |].
    + enter_turn Hc Hf. rewrite Ho. go. reflexivity.
    + reflexivity.
  - intros h msg e Ho Hm Hcl. eapply fatalTurn_intro; [exact Hs| |].
    + enter_turn Hc Hf. rewrite Ho. go. rewrite Hm. go. rewrite Hcl. go.
      reflexivity.
    + reflexivity.
  - intros h e info r g4 Ho Hm Hn Hg t4. subst t4.
    unfold scannerFailed in Hg.
    split.
    + intros e' ->. eapply fatalTurn_intro; [exact Hs| |].
      * enter_turn Hc Hf. rewrite Ho. go. rewrite Hm. go. rewrite Hn. go.
        reopen Hg. go. reflexivity.
      * reflexivity.
    + intros info4 s -> Hn4 Hst.
      split; [|split].
      * intros buf e' Hr. eapply fatalTurn_intro; [exact Hs| |].
        -- enter_turn Hc Hf. rewrite Ho. go. rewrite Hm. go. rewrite Hn. go.
           reopen Hg. go. rewrite Hn4. go.
           unfold call_StreamRead. go. rewrite Hn4. go. rewrite Hst. go.
           rewrite Hr. go. reflexivity.
        -- reflexivity.
      * intros buf e' Hr Hw. eapply fatalTurn_intro; [exact Hs| |].
        -- enter_turn Hc Hf. rewrite Ho. go. rewrite Hm. go. rewrite Hn. go.
           reopen Hg. go. rewrite Hn4. go.
           unfold call_StreamRead. go. rewrite Hn4. go. rewrite Hst. go.
           rewrite Hr. go. unfold call_Write. go. rewrite Hw. go.
           reflexivity.
        -- reflexivity.
      * intros buf Hr Hw.
        assert (Hcyc :
          relayCycle PMTKAddChk env err0 scanner g
          = Ret (Continue (NewScanner (Some s)))
                (with_ntripStatus true
                   (with_trace (E_Write h (PMTKAddChk buf)
                                :: E_StreamRead s :: trace g4) g4))).
        { enter_turn Hc Hf. rewrite Ho. go. rewrite Hm. go. rewrite Hn. go.
          reopen Hg. go. rewrite Hn4. go.
          unfold call_StreamRead. go. rewrite Hn4. go. rewrite Hst. go.
          rewrite Hr. go. unfold call_Write. go. rewrite Hw. go.
          reflexivity. }
        eexists. split; [exact Hcyc|].
        split; [|split; [reflexivity|split]].
        -- cbn. apply getStream_frame in Hg. exact Hg.
        -- exists info4. split; [exact Hn4|exact Hst].
        -- intros fuel. now rewrite (relayLoop_turn fuel _ _ _ _ _ Hs Hcyc).
Qed.

End RelayLoop.

Section Closing.

Context {Orientation Properties : Type}.
Variable env : Env Orientation Properties.

Lemma Wait_spec (g : rtkI2C) :
  Wait env g
  = if activeBackgroundWorkers (waited env g) =? 0
    then Ret tt (waited env g) else Blocked (waited env g).
Proof. reflexivity. Qed.

(** C8 (as amended).  [Close] on a receiver with a non-nil session first
    cancels the context.  If closing the NMEA sensor fails, that error is
    returned at once: nothing else is closed and the relay task is not
    waited for.  If the sensor, the correction writer (if any) and the
    stream (if any) close without error, [Close] waits: it returns only
    once no background worker is left, and then returns the error latched
    in LastError unless that is nil or a context cancellation, in which
    case it returns nil. *)
Theorem C8_Close_reports_unless_cancelled
        (g : rtkI2C) (info : NtripInfo) :
  ntripClient g = Some info ->
  (forall e,
      nmea_Close env (S (List.length (trace g))) = Some e ->
      exists g',
        Close env g = Ret (Some e) g'
        /\ cancelCtx g' <> None
        /\ trace g' = E_Sensor OpClose :: E_Cancel :: trace g
        /\ activeBackgroundWorkers g' = activeBackgroundWorkers g)
  /\
  (nmea_Close env (S (List.length (trace g))) = None ->
   (forall t, correctionWriter_Close env t = None) ->
   (forall t, Stream_Close env t = None) ->
   exists g1,
     cancelCtx g1 <> None
     /\ In E_Cancel (trace g1)
     /\ err g1 = err g
     /\ (activeBackgroundWorkers (waited env g1) = 0 ->
         Close env g = Ret (reportedOnClose (waited env g1)) (waited env g1))
     /\ (activeBackgroundWorkers (waited env g1) <> 0 ->
         Close env g = Blocked (waited env g1))).
Proof.
  intros Hn. split.
  - intros e He. eexists. split.
    + unfold Close, cancelFunc. go. rewrite He. go. reflexivity.
    + cbn. repeat split. discriminate.
  - intros He Hw Hs.
    assert (Hfin : forall g1 : rtkI2C,
      (Wait env ;; e <- err_Get ;;
       match e with
       | Some e' => if negb (errors_Is e' context_Canceled)
                    then ret e else ret None
       | None => ret None
       end)%go g1
      = if activeBackgroundWorkers (waited env g1) =? 0
        then Ret (reportedOnClose (waited env g1)) (waited env g1)
        else Blocked (waited env g1)).
    { intros g1. unfold bind at 1. rewrite Wait_spec.
      destruct (activeBackgroundWorkers (waited env g1) =? 0); [|reflexivity].
      unfold reportedOnClose. go.
      match goal with
      | |- context [LastError_Get ?x] =>
          destruct (LastError_Get x) as [e'|]; [|reflexivity]
      end.
      now destruct (errors_Is e' context_Canceled). }
    assert (Hcut : forall g1 : rtkI2C,
      cancelCtx g1 <> None -> In E_Cancel (trace g1) -> err g1 = err g ->
      Close env g
      = (if activeBackgroundWorkers (waited env g1) =? 0
         then Ret (reportedOnClose (waited env g1)) (waited env g1)
         else Blocked (waited env g1)) ->
      exists g1,
        cancelCtx g1 <> None
        /\ In E_Cancel (trace g1)
        /\ err g1 = err g
        /\ (activeBackgroundWorkers (waited env g1) = 0 ->
            Close env g = Ret (reportedOnClose (waited env g1)) (waited env g1))
        /\ (activeBackgroundWorkers (waited env g1) <> 0 ->
            Close env g = Blocked (waited env g1))).
    { intros g1 H1 H2 H3 H4. exists g1. repeat split; try assumption.
      - intros H0. rewrite H4, H0. reflexivity.
      - intros H0. rewrite H4. apply Z.eqb_neq in H0. now rewrite H0. }
    destruct (correctionWriter g) as [w|] eqn:Ew;
      destruct (NtripClient info) as [c|] eqn:Ec;
      destruct (NtripStream info) as [s|] eqn:Es.
    all: eapply Hcut;
      [| |
       | rewrite <- Hfin; unfold Close, cancelFunc; go; rewrite He; go;
         rewrite ?Ew; go; rewrite ?Hw; go; rewrite Hn; go; rewrite ?Ec; go;
         rewrite ?Hn; go; rewrite ?Ec, ?Es; go; rewrite ?Hs; go;
         rewrite ?Hn; go; reflexivity ].
    all: cbn; first [discriminate | reflexivity | tauto].
Qed.

End Closing.

Ltac vgo :=
  cbv beta delta [bind ret gets modify vask vlog vemit panic block];
  cbn.

Section VirtualBaseSession.

Variable base64_EncodeToString : string -> string.
Variable venv : VEnv.

Lemma connectToVirtualBase_result (g g' : rtkSerial) (r : option ReadWriter) :
  connectToVirtualBase base64_EncodeToString venv g = Ret r g' ->
  rw g' = rw g
  /\ match r with
     | None => isConnected g' = false
     | Some r' =>
         isConnected g' = true
         /\ rwComplete (Some r') = true
         /\ In (V_Flush (Writer r')) (vtrace g')
     end.
Proof.
  unfold connectToVirtualBase. vgo.
  destruct (urlMutex g); [discriminate|]. vgo.
  destruct (vntripClient g) as [n|]; [|discriminate]. vgo.
  destruct (net_Dial venv (List.length (vtrace g))); vgo.
  { intros [= <- <-]. cbn. split; reflexivity. }
  destruct (rw_Write venv (S (List.length (vtrace g)))); vgo.
  { intros [= <- <-]. cbn. split; reflexivity. }
  destruct (rw_Flush venv (S (S (List.length (vtrace g))))); vgo.
  { intros [= <- <-]. cbn. split; reflexivity. }
  intros [= <- <-]. cbn. repeat split. right. right. left. reflexivity.
Qed.

#[local] Arguments connectToVirtualBase : simpl never.
#[local] Opaque bufferLen.

(** What is appended to the trace never undoes an observed handshake. *)
Lemma handshakeObserved_later (g g' : rtkSerial) (l : list VEvent) :
  rw g' = rw g ->
  vtrace g' = (l ++ vtrace g)%list ->
  handshakeObserved g = true ->
  handshakeObserved g' = true.
Proof.
  unfold handshakeObserved. intros -> ->.
  destruct (rw g) as [[[c|] w]|]; try discriminate.
  rewrite existsb_app. intros ->. apply orb_true_r.
Qed.

Lemma getGGAMessage_loop_frame (fuel : nat) :
  forall (buffer : list byte) (g g' : rtkSerial) r,
    getGGAMessage_loop venv fuel buffer g = Ret r g' ->
    rw g' = rw g
    /\ isConnected g' = isConnected g
    /\ exists l, vtrace g' = (l ++ vtrace g)%list.
Proof.
  induction fuel as [|fuel IH]; intros buffer g g' r; [discriminate|].
  cbn [getGGAMessage_loop]. vgo.
  destruct (vcorrectionWriter g) as [w|]; [|discriminate]. vgo.
  destruct (correctionWriter_Read venv (List.length (vtrace g)))
    as [data [e|]]; vgo.
  - intros [= <- <-]. cbn. repeat split.
    now exists [V_Log LError ("Error reading from Ntrip stream: " ++ Error e);
                V_Read w].
  - match goal with |- context [if ?b then _ else _] => destruct b end.
    + intros [= <- <-]. cbn. repeat split. now exists [V_Read w].
    + match goal with |- context [if ?b then _ else _] => destruct b end.
      * intros [= <- <-]. cbn. repeat split. now exists [V_Read w].
      * intros Hrun. apply IH in Hrun. cbn in Hrun.
        destruct Hrun as (H1 & H2 & l & H3).
        repeat split; try assumption.
        exists (l ++ [V_Read w])%list. rewrite <- app_assoc. exact H3.
Qed.

(** A handshake loop that ends by [break] over a complete reader and writer
    has read a "200 OK" status line from that connection. *)
Lemma handshake_loop_break (fuel : nat) :
  forall (g g' : rtkSerial),
    rwComplete (rw g) = true ->
    handshake_loop venv fuel g = Ret (inr tt) g' ->
    rw g' = rw g
    /\ isConnected g' = true
    /\ handshakeObserved g' = true.
Proof.
  induction fuel as [|fuel IH]; intros g g' Hc; [discriminate|].
  cbn [handshake_loop]. vgo.
  destruct (rw g) as [[[c|] [w|]]|] eqn:Erw; try discriminate. vgo.
  destruct (rw_ReadLine venv (S (List.length (vtrace g)))) as [line [e|]] eqn:El;
    vgo.
  - destruct (error_same e io_EOF); vgo; discriminate.
  - destruct (HasPrefix line "HTTP/1.1 ") eqn:Hp.
    + destruct (Contains line "200 OK") eqn:Hok; vgo; [|discriminate].
      intros [= <-]. cbn. split; [assumption|]. split; [reflexivity|].
      unfold handshakeObserved. cbn. rewrite Erw. cbn.
      unfold is200OK. rewrite Nat.eqb_refl, Hp, Hok. reflexivity.
    + intros Hrun. apply IH in Hrun; cbn; [|now rewrite Erw].
      cbn in Hrun. rewrite Erw in Hrun. exact Hrun.
Qed.

(** C6 (as amended).  [connectToVirtualBase] sets [isConnected] exactly when
    it returns a ReadWriter, whose reader and writer are then non-nil and
    over which the request has been flushed; no response has been read at
    that point.  The "200 OK" line is known to have been observed once
    [sendGGAMessage], entered with a nil or complete ReadWriter, returns its
    ReadWriter without error: then [isConnected] holds, that ReadWriter is
    the receiver's, its reader and writer are non-nil, and an "HTTP/1.1"
    status line containing "200 OK" was read from its connection. *)
Theorem C6_isConnected_after_connect_and_handshake :
  (forall (g g' : rtkSerial) (r : option ReadWriter),
      connectToVirtualBase base64_EncodeToString venv g = Ret r g' ->
      (isConnected g' = true <-> r <> None)
      /\ (forall r', r = Some r' ->
                     rwComplete (Some r') = true
                     /\ In (V_Flush (Writer r')) (vtrace g')))
  /\
  (forall (fuel : nat) (g g' : rtkSerial) (r' : ReadWriter),
      rw g = None \/ rwComplete (rw g) = true ->
      sendGGAMessage base64_EncodeToString venv fuel g
      = Ret (Some r', None) g' ->
      isConnected g' = true
      /\ rw g' = Some r'
      /\ rwComplete (Some r') = true
      /\ handshakeObserved g' = true).
Proof.
  split.
  - intros g g' r Hrun.
    apply connectToVirtualBase_result in Hrun. destruct Hrun as (_ & Hr).
    destruct r as [r'|].
    + destruct Hr as (H1 & H2 & H3). split.
      * split; [discriminate|intros _; exact H1].
      * intros r0 [= <-]. split; assumption.
    + split.
      * rewrite Hr. split; [discriminate|intros H; now elim H].
      * intros r0 [=].
  - intros fuel g g' r' Hwf. unfold sendGGAMessage.
    unfold bind at 1. unfold gets at 1.
    (* the receiver when the handshake loop starts *)
    assert (Hstart : forall g0 : rtkSerial,
      (if isConnected g then ret tt
       else vlog LError "::::::::^^^^^^ NOT CONNECTED CONNECTING" ;;
            r <- connectToVirtualBase base64_EncodeToString venv ;;
            modify (with_rw r))%go g = Ret tt g0 ->
      rw g0 = None \/ rwComplete (rw g0) = true).
    { intros g0. destruct (isConnected g).
      - vgo. intros [= <-]. exact Hwf.
      - vgo.
        destruct (connectToVirtualBase base64_EncodeToString venv
                    (with_vtrace
                       (V_Log LError "::::::::^^^^^^ NOT CONNECTED CONNECTING"
                        :: vtrace g) g)) as [r g1| |] eqn:Hc; try discriminate.
        cbn. intros [= <-]. cbn.
        apply connectToVirtualBase_result in Hc. destruct Hc as (_ & Hr).
        destruct r as [r0|]; [right; apply Hr|left; reflexivity]. }
    unfold bind at 1.
    destruct ((if isConnected g then ret tt
               else vlog LError "::::::::^^^^^^ NOT CONNECTED CONNECTING" ;;
                    r <- connectToVirtualBase base64_EncodeToString venv ;;
                    modify (with_rw r))%go g) as [[] g0| |] eqn:Hpre;
      try discriminate.
    specialize (Hstart g0 eq_refl).
    unfold bind at 1.
    destruct (handshake_loop venv fuel g0) as [[res|[]] g2| |] eqn:Hloop;
      try discriminate.
    { (* a return inside the loop hands back no ReadWriter *)
      intros [= ->]. exfalso. clear - Hloop.
      revert g0 Hloop. induction fuel as [|fuel IH]; intros g0; [discriminate|].
      cbn [handshake_loop]. vgo.
      destruct (rw g0) as [[[c|] [w|]]|]; try discriminate. vgo.
      destruct (rw_ReadLine venv (S (List.length (vtrace g0)))) as [line [e|]];
        vgo.
      - destruct (error_same e io_EOF); vgo; discriminate.
      - destruct (HasPrefix line "HTTP/1.1 ").
        + destruct (Contains line "200 OK"); vgo; discriminate.
        + apply IH. }
    destruct Hstart as [Hnil|Hcomplete].
    { (* a nil ReadWriter: the loop panics *)
      destruct fuel; [discriminate|].
      cbn [handshake_loop] in Hloop. revert Hloop. vgo. rewrite Hnil.
      discriminate. }
    destruct (handshake_loop_break fuel g0 g2 Hcomplete Hloop)
      as (Hrw & Hcon & Hobs).
    unfold getGGAMessage. unfold bind at 1.
    destruct (getGGAMessage_loop venv fuel [] g2) as [[msg e] g3| |] eqn:Hgga;
      try discriminate.
    destruct (getGGAMessage_loop_frame fuel [] g2 g3 _ Hgga)
      as (Hrw3 & Hcon3 & l & Htr3).
    destruct e as [e|]; vgo; [discriminate|].
    destruct (rw g3) as [r3|] eqn:Erw3; [|discriminate].
    destruct (Writer r3) as [w|] eqn:Ew; [|discriminate]. vgo.
    destruct (rw_WriteString venv _); vgo; [discriminate|].
    destruct (rw_Flush venv _); vgo; [discriminate|].
    rewrite Erw3. intros [= <- <-].
    assert (Hr3 : rwComplete (Some r3) = true)
      by (rewrite Hrw3, Hrw; exact Hcomplete).
    split; [cbn; congruence|]. split; [assumption|].
    split; [exact Hr3|].
    eapply (handshakeObserved_later g2 _
              (V_Log LDebug "GGA message sent successfully."
               :: V_Flush (Some w)
               :: V_WriteString (Some w) (string_of_list_byte msg)
               :: V_Log LDebug ("Writing GGA message: " ++ string_of_list_byte msg)
               :: l)).
    + cbn. congruence.
    + cbn. rewrite Htr3. reflexivity.
    + exact Hobs.
Qed.

End VirtualBaseSession.

(** ** The properties at work on the scenarios *)

Lemma C1_zero_fix_returned_unchanged_witness :
  Position envZero (cachedNY newRtkI2C)
  = Ret (Some P_zero, f0, None) (consulted OpPosition (cachedNY newRtkI2C))
  /\ LinearVelocity envZero (cachedNY newRtkI2C)
     = Ret (mkVector f0 f5_4 f0, None)
           (consulted OpLinearVelocity (cachedNY newRtkI2C)).
Proof.
  exact (C1_zero_fix_returned_unchanged envZero (cachedNY newRtkI2C) P_NY
           eq_refl eq_refl eq_refl).
Defined.

(** C1 as stated fails: with the valid point (40.7, -73.98) cached and
    nothing latched, the fix (0,0) at altitude 0 comes back as (0,0), not
    as the cached point. *)
Lemma C1_zero_fix_not_replaced :
  LastError_Get (err (cachedNY newRtkI2C)) = None
  /\ nmea_Position envZero (List.length (trace (cachedNY newRtkI2C)))
     = (Some P_zero, f0, None)
  /\ GetLastPosition (lastposition (cachedNY newRtkI2C)) = Some P_NY
  /\ validPoint P_NY = true
  /\ exists g',
      Position envZero (cachedNY newRtkI2C) = Ret (Some P_zero, f0, None) g'
      /\ Some P_zero <> Some P_NY.
Proof.
  repeat (split; [reflexivity|]).
  eexists. split; [reflexivity|discriminate].
Qed.


Lemma C4_normal_fix_returned_cache_untouched_witness :
  exists g',
    Position envNormal newRtkI2C = Ret (Some P_NY, f50_5, None) g'
    /\ lastposition g' = lastposition newRtkI2C.
Proof.
  exact (C4_normal_fix_returned_cache_untouched envNormal newRtkI2C
           eq_refl eq_refl).
Defined.

(** C4 as stated fails: the normal fix is returned, but the cache is as
    empty afterwards as it was before. *)
Lemma C4_normal_fix_not_cached :
  LastError_Get (err newRtkI2C) = None
  /\ nmea_Position envNormal (List.length (trace newRtkI2C))
     = (Some P_NY, f50_5, None)
  /\ exists g',
      Position envNormal newRtkI2C = Ret (Some P_NY, f50_5, None) g'
      /\ GetLastPosition (lastposition g') = None
      /\ GetLastPosition (lastposition g') <> Some P_NY.
Proof.
  repeat (split; [reflexivity|]).
  eexists. split; [reflexivity|]. split; [reflexivity|discriminate].
Qed.

Lemma C5_NaN_fix_replaced_altitude_kept_witness :
  exists alt,
    Position envNaN (cachedNY newRtkI2C)
    = Ret (Some P_NY, alt, None) (consulted OpPosition (cachedNY newRtkI2C))
    /\ IsNaN alt = true.
Proof.
  exact (C5_NaN_fix_replaced_altitude_kept envNaN (cachedNY newRtkI2C)
           eq_refl eq_refl eq_refl).
Defined.

Lemma C9_sensor_error_suppressed_witness :
  Position envZeroFailing (cachedNY newRtkI2C)
  = Ret (Some P_NY, f50_5, None) (consulted OpPosition (cachedNY newRtkI2C)).
Proof.
  exact (C9_sensor_error_suppressed envZeroFailing (cachedNY newRtkI2C)
           P_zero P_NY f50_5 (errors_New "no fix yet")
           eq_refl eq_refl (or_introl (conj eq_refl eq_refl)) eq_refl).
Defined.

Lemma C10_connect_returns_latched_slot_witness :
  exists g',
    connect envLateCaster "http://fakeurl" "user" "pwd" 10
            (latched relayError newRtkI2C)
    = Ret (Some relayError) g'
    /\ ntripClient g' = Some (set_Client (Some 7%nat) testInfo)
    /\ err g' = err (latched relayError newRtkI2C).
Proof.
  apply (C10_connect_returns_latched_slot envLateCaster
           (latched relayError newRtkI2C) testInfo (Some 7%nat)
           "http://fakeurl" "user" "pwd" 10 2%nat).
  - reflexivity.
  - vm_compute. lia.
  - intros j Hj.
    destruct j as [|[|j]]; [discriminate|discriminate|lia].
  - reflexivity.
Defined.

Lemma C7_getStream_tolerates_ICY_witness :
  (exists g',
      getStream envLegacyCaster "NYC" 10 streamingI2C = Ret None g'
      /\ ntripClient g'
         = Some (set_Stream None (set_Client (Some 1%nat) testInfo)))
  /\ (exists g',
         getStream envNoHost "NYC" 10 streamingI2C = Ret (Some noSuchHost) g'
         /\ ntripClient g' = ntripClient streamingI2C).
Proof.
  split.
  - assert (Hloop : exists g1,
      getStream_attempts envLegacyCaster (Z.to_nat 10) "NYC" None None
        (with_trace (E_Log LDebug "Getting NTRIP stream" :: trace streamingI2C)
                    streamingI2C)
      = Ret (inr (None, Some icyError)) g1)
      by (eexists; vm_compute; reflexivity).
    destruct Hloop as (g1 & Hloop).
    destruct (C7_getStream_tolerates_ICY envLegacyCaster streamingI2C g1
                "NYC" 10 None icyError Hloop) as [Hicy _].
    destruct (Hicy eq_refl) as (info & g' & Hinfo & Hrun & Hs & _).
    exists g'. split; [exact Hrun|].
    rewrite Hs. injection Hinfo as <-. reflexivity.
  - assert (Hloop : exists g1,
      getStream_attempts envNoHost (Z.to_nat 10) "NYC" None None
        (with_trace (E_Log LDebug "Getting NTRIP stream" :: trace streamingI2C)
                    streamingI2C)
      = Ret (inr (None, Some noSuchHost)) g1)
      by (eexists; vm_compute; reflexivity).
    destruct Hloop as (g1 & Hloop).
    destruct (C7_getStream_tolerates_ICY envNoHost streamingI2C g1
                "NYC" 10 None noSuchHost Hloop) as [_ Hother].
    destruct (Hother eq_refl) as (g' & Hrun & Hs & _).
    exists g'. split; assumption.
Defined.

Lemma C2_relay_turn_recovers_or_is_fatal_witness :
  recoveredTurn noChecksum envDesync None (NewScanner (Some 0%nat))
                streamingI2C 1%nat
  /\ fatalTurn noChecksum envBusDown None (NewScanner (Some 0%nat))
               streamingI2C busError.
Proof.
  split.
  - pose proof (C2_relay_turn_recovers_or_is_fatal noChecksum envDesync
                  streamingI2C None (NewScanner (Some 0%nat))
                  eq_refl eq_refl eq_refl) as H.
    cbv zeta in H. destruct H as (_ & _ & H).
    edestruct (H 1%nat io_EOF
                 (set_Stream (Some 0%nat) (set_Client (Some 1%nat) testInfo)))
      as (_ & Hreopened);
      [reflexivity | reflexivity | reflexivity | vm_compute; reflexivity |].
    destruct (Hreopened
                (set_Stream (Some 1%nat) (set_Client (Some 1%nat) testInfo))
                1%nat eq_refl eq_refl eq_refl) as (_ & _ & Hok).
    apply (Hok []); reflexivity.
  - pose proof (C2_relay_turn_recovers_or_is_fatal noChecksum envBusDown
                  streamingI2C None (NewScanner (Some 0%nat))
                  eq_refl eq_refl eq_refl) as H.
    cbv zeta in H. destruct H as (H & _).
    apply (H 0%nat busError). reflexivity.
Defined.

Lemma C8_Close_reports_unless_cancelled_witness :
  (exists g',
      Close envNormal (latched relayError streamingI2C)
      = Ret (Some relayError) g'
      /\ activeBackgroundWorkers g' = 0)
  /\ (exists g',
         Close envNormal (latched context_Canceled streamingI2C) = Ret None g'
         /\ activeBackgroundWorkers g' = 0).
Proof.
  split.
  - destruct (C8_Close_reports_unless_cancelled envNormal
                (latched relayError streamingI2C)
                (set_Stream (Some 0%nat) (set_Client (Some 1%nat) testInfo))
                eq_refl) as (_ & H).
    destruct (H eq_refl (fun _ => eq_refl) (fun _ => eq_refl))
      as (g1 & _ & _ & He & Hret & _).
    exists (waited envNormal g1).
    rewrite (Hret eq_refl). split; [|reflexivity].
    unfold reportedOnClose. cbn. rewrite He. reflexivity.
  - destruct (C8_Close_reports_unless_cancelled envNormal
                (latched context_Canceled streamingI2C)
                (set_Stream (Some 0%nat) (set_Client (Some 1%nat) testInfo))
                eq_refl) as (_ & H).
    destruct (H eq_refl (fun _ => eq_refl) (fun _ => eq_refl))
      as (g1 & _ & _ & He & Hret & _).
    exists (waited envNormal g1).
    rewrite (Hret eq_refl). split; [|reflexivity].
    unfold reportedOnClose. cbn. rewrite He. reflexivity.
Defined.

(** C8 as stated fails: when the NMEA sensor cannot be closed, [Close]
    returns the sensor's error, not the error the relay task left, and it
    has not waited: the worker is still counted and no wait is recorded. *)
Lemma C8_Close_returns_early :
  exists g',
    Close envSensorStuck (with_workers 1 (latched relayError streamingI2C))
    = Ret (Some sensorCloseError) g'
    /\ LastError_Get (err g') = Some relayError
    /\ errors_Is relayError context_Canceled = false
    /\ sensorCloseError <> relayError
    /\ activeBackgroundWorkers g' = 1
    /\ ~ In E_Wait (trace g').
Proof.
  eexists. split; [reflexivity|].
  repeat (split; [first [reflexivity | discriminate]|]).
  cbn. intros [H|[H|[]]]; discriminate.
Qed.

Lemma C6_isConnected_after_connect_and_handshake_witness :
  exists r' g',
    sendGGAMessage plainCredentials (casterAnswering "HTTP/1.1 200 OK" None)
                   3 newRtkSerial
    = Ret (Some r', None) g'
    /\ isConnected g' = true
    /\ rw g' = Some r'
    /\ rwComplete (Some r') = true
    /\ handshakeObserved g' = true.
Proof.
  eexists _, _. split; [vm_compute; reflexivity|].
  apply (proj2 (C6_isConnected_after_connect_and_handshake plainCredentials
                  (casterAnswering "HTTP/1.1 200 OK" None))
               3%nat newRtkSerial).
  - left. reflexivity.
  - vm_compute. reflexivity.
Defined.

(** C6 as stated fails: [connectToVirtualBase] sets [isConnected] when the
    request has been flushed, before any response line is read and before
    the caller stores the ReadWriter; and [sendGGAMessage] returns with
    [isConnected] still set when the first read fails with an error other
    than EOF, no "200 OK" line having been observed. *)
Lemma C6_connected_before_handshake :
  (exists r g',
      connectToVirtualBase plainCredentials
        (casterAnswering "" (Some timeoutError)) newRtkSerial
      = Ret (Some r) g'
      /\ isConnected g' = true
      /\ rw g' = None
      /\ handshakeObserved g' = false)
  /\ (exists g',
         sendGGAMessage plainCredentials
           (casterAnswering "" (Some timeoutError)) 3 newRtkSerial
         = Ret (None, Some timeoutError) g'
         /\ isConnected g' = true
         /\ rwComplete (rw g') = true
         /\ handshakeObserved g' = false).
Proof.
  split.
  - eexists _, _. split; [vm_compute; reflexivity|].
    repeat split.
  - eexists. split; [vm_compute; reflexivity|].
    repeat split.
Qed.

(** ** The package's tests, replayed on the model *)

(** [TestConnect]: no client can be built, on a receiver without session. *)
Example TestConnect_invalid_url :
  exists g',
    connect envNoCaster "invalidurl" "user" "pwd" 10 bareRtkI2C
    = Ret (Some (errors_New "Can't connect to NTRIP caster after 10 attempts"))
          g'
    /\ List.length (trace g') = 11%nat.
Proof. eexists. split; [vm_compute; reflexivity|reflexivity]. Qed.

(** [TestConnect]: with a session, the first attempt succeeds and nothing
    is latched; the stream then cannot be resolved. *)
Example TestConnect_then_getStream :
  exists g' g'',
    connect envNoHost "http://fakeurl" "user" "pwd" 10 newRtkI2C = Ret None g'
    /\ getStream envNoHost "" 10 g' = Ret (Some noSuchHost) g''
    /\ Contains (Error noSuchHost) "no such host" = true.
Proof.
  eexists _, _.
  split; [vm_compute; reflexivity|].
  split; [vm_compute; reflexivity|reflexivity].
Qed.

(** [TestReadings]: the normal fix, the zero fix, and the NaN fix once the
    test has seeded the cache. *)
Example TestReadings_positions :
  (exists g', Position envNormal newRtkI2C = Ret (Some P_NY, f50_5, None) g')
  /\ (exists g', Position envZero newRtkI2C = Ret (Some P_zero, f0, None) g')
  /\ (exists g', Position envNaN (cachedNY newRtkI2C)
                 = Ret (Some P_NY, NaN, None) g').
Proof.
  split; [|split]; eexists; vm_compute; reflexivity.
Qed.

(** [TestCloseRTK]: an empty session, nothing running. *)
Example TestCloseRTK :
  exists g', Close envNormal newRtkI2C = Ret None g'.
Proof. eexists. vm_compute. reflexivity. Qed.

(** The relay task on a working world and a stream that loses its message
    boundary in every turn: it keeps reopening the stream and never latches
    an error, for as long as it is run. *)
Example relay_keeps_recovering :
  exists g',
    receiveAndWriteI2C noChecksum envDesync 5 newRtkI2C = Blocked g'
    /\ LastError_Get (err g') = None
    /\ ntripStatus g' = true.
Proof.
  eexists. split; [vm_compute; reflexivity|].
  split; reflexivity.
Qed.

(** * Further properties of the package *)

Section ValidationProperties.

Variable fieldError : string -> string -> error.

(** X1.  [Validate] accepts a configuration exactly when the I2C bus is
    named, the I2C address is not 0 and the NTRIP URL is given; otherwise it
    returns a nil slice and the required-field error of the first missing
    attribute, looked for in the order [i2c_bus], [i2c_addr], [ntrip_url]. *)
Theorem X1_Validate_required_fields (cfg : Config) (path : string) :
  (snd (Validate fieldError cfg path) = None
   <-> I2CBus cfg <> "" /\ I2CAddr cfg <> 0 /\ NtripURL cfg <> "")
  /\ (I2CBus cfg = "" ->
      Validate fieldError cfg path = (None, Some (fieldError path "i2c_bus")))
  /\ (I2CBus cfg <> "" -> I2CAddr cfg = 0 ->
      Validate fieldError cfg path = (None, Some (fieldError path "i2c_addr")))
  /\ (I2CBus cfg <> "" -> I2CAddr cfg <> 0 -> NtripURL cfg = "" ->
      Validate fieldError cfg path = (None, Some (fieldError path "ntrip_url")))
  /\ (I2CBus cfg <> "" -> I2CAddr cfg <> 0 -> NtripURL cfg <> "" ->
      Validate fieldError cfg path = (Some [], None)).
Proof.
  unfold Validate, validateI2C, validateNtrip.
  destruct (String.eqb_spec (I2CBus cfg) "") as [Hb|Hb];
    destruct (Z.eqb_spec (I2CAddr cfg) 0) as [Ha|Ha];
    destruct (String.eqb_spec (NtripURL cfg) "") as [Hu|Hu]; cbn;
    (split; [split; [discriminate || tauto | tauto || reflexivity]|]);
    repeat split; intros; congruence.
Qed.

End ValidationProperties.

Section AttemptBudgets.

Context {Orientation Properties : Type}.
Variable env : Env Orientation Properties.

Lemma repeat_shift {A : Type} (a : A) (n : nat) (t : list A) :
  (repeat a n ++ a :: t)%list = (a :: repeat a n ++ t)%list.
Proof.
  induction n as [|n IH]; cbn; [reflexivity|]. now rewrite IH.
Qed.

Lemma connect_attempts_all_fail (left : nat) :
  forall (g : rtkI2C) (casterAddr user pwd : string),
    (forall j, (j < left)%nat ->
               snd (ntrip_NewClient env (List.length (trace g) + j)) <> None) ->
    connect_attempts env left casterAddr user pwd g
    = Ret None (with_trace (repeat (E_NewClient casterAddr user pwd) left
                            ++ trace g) g).
Proof.
  induction left as [|left IH]; intros g a u p Hfail.
  - cbn. now destruct g.
  - cbn [connect_attempts]. go.
    destruct (ntrip_NewClient env (List.length (trace g))) as [c [e|]] eqn:E.
    + rewrite IH.
      * cbn. rewrite repeat_shift. reflexivity.
      * intros j Hj. cbn. rewrite <- Nat.add_succ_r. apply Hfail. lia.
    + exfalso. apply (Hfail 0%nat); [lia|].
      rewrite Nat.add_0_r, E. reflexivity.
Qed.

(** X2.  When every attempt to build a client fails (or the budget is not
    positive), [connect] asks exactly [max 0 maxAttempts] times, returns the
    error naming the budget, and changes nothing of the receiver but its
    trace; it does so even on a receiver without a session. *)
Theorem X2_connect_exhausts_its_budget
        (g : rtkI2C) (casterAddr user pwd : string) (maxAttempts : Z) :
  (forall j, (j < Z.to_nat maxAttempts)%nat ->
             snd (ntrip_NewClient env (S (List.length (trace g)) + j)) <> None) ->
  connect env casterAddr user pwd maxAttempts g
  = Ret (Some (errors_New ("Can't connect to NTRIP caster after "
                           ++ itoa maxAttempts ++ " attempts")))
        (with_trace (repeat (E_NewClient casterAddr user pwd)
                            (Z.to_nat maxAttempts)
                     ++ E_Log LInfo "starting connect" :: trace g) g).
Proof.
  intros Hfail. unfold connect. go.
  rewrite connect_attempts_all_fail; [reflexivity|exact Hfail].
Qed.

Lemma streamRequests_cons (ev : Event) (t : list Event) :
  streamRequests (ev :: t)
  = ((if isGetStream ev then 1 else 0) + streamRequests t)%nat.
Proof. unfold streamRequests. cbn. now destruct (isGetStream ev). Qed.

Lemma getStream_attempts_bounded (left : nat) :
  forall (mp : string) (rc0 : option Stream) (e0 : option error)
         (g g1 : rtkI2C) r,
    getStream_attempts env left mp rc0 e0 g = Ret r g1 ->
    (streamRequests (trace g) <= streamRequests (trace g1)
     <= streamRequests (trace g) + left)%nat.
Proof.
  induction left as [|left IH]; intros mp rc0 e0 g g1 r Hrun.
  - cbn in Hrun. injection Hrun as <- <-. lia.
  - cbn [getStream_attempts] in Hrun.
    destruct (ctx_Done_frame env g) as (b & g' & Hd & _ & _ & _ & Ht).
    unfold bind at 1 in Hrun. rewrite Hd in Hrun.
    assert (Hs : streamRequests (trace g') = streamRequests (trace g))
      by (rewrite Ht; apply streamRequests_cons).
    destruct b.
    + cbn in Hrun. injection Hrun as <- <-. lia.
    + unfold call_GetStream in Hrun. revert Hrun. go.
      destruct (ntripClient g') as [n|]; [|discriminate].
      destruct (NtripClient n) as [c|]; [|discriminate].
      go.
      destruct (Client_GetStream env (List.length (trace g')))
        as [rc' [e'|]]; intros Hrun.
      * apply IH in Hrun. cbn [trace with_trace] in Hrun.
        rewrite streamRequests_cons in Hrun. cbn in Hrun. lia.
      * injection Hrun as <- <-. cbn [trace with_trace].
        rewrite streamRequests_cons. cbn. lia.
Qed.

(** X3.  Whatever the caster and the context do, a call of [getStream]
    that returns has asked the caster for the stream at most
    [max 0 maxAttempts] times. *)
Theorem X3_getStream_respects_its_budget
        (g g' : rtkI2C) (mountPoint : string) (maxAttempts : Z)
        (r : option error) :
  getStream env mountPoint maxAttempts g = Ret r g' ->
  (streamRequests (trace g) <= streamRequests (trace g')
   <= streamRequests (trace g) + Z.to_nat maxAttempts)%nat.
Proof.
  unfold getStream. go.
  destruct (getStream_attempts env (Z.to_nat maxAttempts) mountPoint None None
              (with_trace (E_Log LDebug "Getting NTRIP stream" :: trace g) g))
    as [[res|[rc e]] g1| |] eqn:Hloop; try discriminate;
    apply getStream_attempts_bounded in Hloop;
    cbn [trace with_trace] in Hloop;
    rewrite streamRequests_cons in Hloop; cbn in Hloop.
  - intros [= <- <-]. exact Hloop.
  - unfold getStream_finish.
    destruct e as [e|].
    + destruct (Contains (Error e) "ICY"); go.
      * destruct (ntripClient g1); [|discriminate]. intros [= <- <-].
        cbn [trace with_trace with_ntripClient].
        rewrite !streamRequests_cons. cbn. exact Hloop.
      * intros [= <- <-]. cbn [trace with_trace].
        rewrite streamRequests_cons. cbn. exact Hloop.
    + go. destruct (ntripClient g1); [|discriminate]. intros [= <- <-].
      cbn [trace with_trace with_ntripClient].
      rewrite streamRequests_cons. cbn. exact Hloop.
Qed.

(** X4.  [getStream] entered with a cancelled context and a positive budget
    returns the error "Canceled" at once: the caster is not asked and the
    session and the error slot are left as they were. *)
Theorem X4_getStream_cancelled_at_entry
        (g : rtkI2C) (c : error) (mountPoint : string) (maxAttempts : Z) :
  cancelCtx g = Some c ->
  0 < maxAttempts ->
  exists g',
    getStream env mountPoint maxAttempts g
    = Ret (Some (errors_New "Canceled")) g'
    /\ ntripClient g' = ntripClient g
    /\ err g' = err g
    /\ streamRequests (trace g') = streamRequests (trace g).
Proof.
  intros Hc Hpos.
  destruct (Z.to_nat maxAttempts) as [|n] eqn:En; [lia|].
  eexists. split.
  - unfold getStream. go. rewrite En. cbn [getStream_attempts].
    unfold ctx_Done. go. rewrite Hc. go. reflexivity.
  - cbn. repeat split.
Qed.

(** X5.  [getStream] with a budget that is not positive makes no attempt
    and still takes the success path: the session's stream is overwritten
    with nil and the result is what the LastError slot holds. *)
Theorem X5_getStream_without_budget
        (g : rtkI2C) (info : NtripInfo) (mountPoint : string)
        (maxAttempts : Z) :
  maxAttempts <= 0 ->
  ntripClient g = Some info ->
  exists g',
    getStream env mountPoint maxAttempts g = Ret (LastError_Get (err g)) g'
    /\ ntripClient g' = Some (set_Stream None info)
    /\ streamRequests (trace g') = streamRequests (trace g).
Proof.
  intros Hn Hi.
  assert (En : Z.to_nat maxAttempts = 0%nat) by lia.
  eexists. split.
  - unfold getStream. go. rewrite En. cbn [getStream_attempts].
    unfold getStream_finish. go. rewrite Hi. go. reflexivity.
  - cbn. split; reflexivity.
Qed.

End AttemptBudgets.

Section StreamOpening.

Context {Orientation Properties : Type}.
Variable env : Env Orientation Properties.

Lemma getStream_attempts_first_success (k : nat) :
  forall (left : nat) (g : rtkI2C) (info : NtripInfo) (c : Client)
         (mp : string) (rc0 rc : option Stream) (e0 : option error),
    cancelCtx g = None ->
    ntripClient g = Some info ->
    NtripClient info = Some c ->
    (k < left)%nat ->
    (forall j, (j <= k)%nat ->
               cancel_fired env (List.length (trace g) + 2 * j) = false) ->
    (forall j, (j < k)%nat ->
               snd (Client_GetStream env (List.length (trace g) + 2 * j + 1))
               <> None) ->
    Client_GetStream env (List.length (trace g) + 2 * k + 1) = (rc, None) ->
    exists g1,
      getStream_attempts env left mp rc0 e0 g = Ret (inr (rc, None)) g1
      /\ err g1 = err g
      /\ ntripClient g1 = ntripClient g
      /\ streamRequests (trace g1) = (streamRequests (trace g) + S k)%nat.
Proof.
  induction k as [|k IH];
    intros left g info c mp rc0 rc e0 Hc Hi Hcl Hk Hlive Hfail Hok;
    (destruct left as [|left]; [lia|]);
    pose proof (Hlive 0%nat (Nat.le_0_l _)) as Hl0;
    rewrite Nat.mul_0_r, Nat.add_0_r in Hl0;
    cbn [getStream_attempts]; unfold ctx_Done, call_GetStream; go;
    rewrite Hl0; go; rewrite Hc; go; rewrite Hi; go; rewrite Hcl; go.
  - replace (S (List.length (trace g)))
      with (List.length (trace g) + 2 * 0 + 1)%nat by lia.
    rewrite Hok. go. eexists. split; [reflexivity|].
    cbn [trace with_trace err ntripClient].
    rewrite !streamRequests_cons. cbn. repeat split; try assumption. lia.
  - destruct (Client_GetStream env (S (List.length (trace g))))
      as [rc' [e'|]] eqn:E.
    + destruct (IH left
                  (with_trace (E_GetStream c mp :: E_Done :: trace g) g)
                  info c mp rc' rc (Some e')) as (g1 & Hrun & He & Hn & Hs).
      * exact Hc.
      * exact Hi.
      * exact Hcl.
      * lia.
      * intros j Hj. cbn [trace with_trace List.length].
        replace (S (S (List.length (trace g))) + 2 * j)%nat
          with (List.length (trace g) + 2 * S j)%nat by lia.
        apply Hlive. lia.
      * intros j Hj. cbn [trace with_trace List.length].
        replace (S (S (List.length (trace g))) + 2 * j + 1)%nat
          with (List.length (trace g) + 2 * S j + 1)%nat by lia.
        apply Hfail. lia.
      * cbn [trace with_trace List.length].
        replace (S (S (List.length (trace g))) + 2 * k + 1)%nat
          with (List.length (trace g) + 2 * S k + 1)%nat by lia.
        exact Hok.
      * exists g1. split; [exact Hrun|].
        cbn [trace with_trace err ntripClient] in He, Hn, Hs.
        rewrite !streamRequests_cons in Hs. cbn in Hs.
        split; [exact He|]. split; [congruence|lia].
    + exfalso. apply (Hfail 0%nat); [lia|].
      replace (List.length (trace g) + 2 * 0 + 1)%nat
        with (S (List.length (trace g))) by lia.
      rewrite E. reflexivity.
Qed.

(** X6.  On a live context and a session with a client, when the attempt
    numbered [k] (from 0) is the first on which the caster returns a nil
    error, [getStream] has asked the caster [k + 1] times, stores the stream
    it got in the session and returns what the LastError slot holds. *)
Theorem X6_getStream_stops_at_first_success
        (g : rtkI2C) (info : NtripInfo) (c : Client) (mountPoint : string)
        (maxAttempts : Z) (k : nat) (rc : option Stream) :
  cancelCtx g = None ->
  ntripClient g = Some info ->
  NtripClient info = Some c ->
  (k < Z.to_nat maxAttempts)%nat ->
  (forall j, (j <= k)%nat ->
             cancel_fired env (S (List.length (trace g)) + 2 * j) = false) ->
  (forall j, (j < k)%nat ->
             snd (Client_GetStream env (S (List.length (trace g)) + 2 * j + 1))
             <> None) ->
  Client_GetStream env (S (List.length (trace g)) + 2 * k + 1) = (rc, None) ->
  exists g',
    getStream env mountPoint maxAttempts g = Ret (LastError_Get (err g)) g'
    /\ ntripClient g' = Some (set_Stream rc info)
    /\ err g' = err g
    /\ streamRequests (trace g') = (streamRequests (trace g) + S k)%nat.
Proof.
  intros Hc Hi Hcl Hk Hlive Hfail Hok.
  destruct (getStream_attempts_first_success k (Z.to_nat maxAttempts)
              (with_trace (E_Log LDebug "Getting NTRIP stream" :: trace g) g)
              info c mountPoint None rc None Hc Hi Hcl Hk Hlive Hfail Hok)
    as (g1 & Hrun & He & Hn & Hs).
  cbn [trace with_trace err ntripClient] in He, Hn, Hs.
  rewrite streamRequests_cons in Hs. cbn in Hs.
  eexists. split.
  - unfold getStream. go. rewrite Hrun. unfold getStream_finish. go.
    rewrite Hn, Hi. go. rewrite He. reflexivity.
  - cbn [trace with_trace with_ntripClient err ntripClient].
    rewrite streamRequests_cons. cbn. repeat split; assumption.
Qed.

End StreamOpening.

Section FacadeInvariants.

Context {Orientation Properties : Type}.
Variable NewZeroOrientation : Orientation.
Variable Properties_zero : Properties.
Variable env : Env Orientation Properties.

Lemma passthrough_observes {A : Type} (zero : A) oracle op (g g' : rtkI2C) r :
  passthrough zero oracle op g = Ret r g' ->
  g' = g \/ g' = consulted op g.
Proof.
  unfold passthrough, bind, err_Get, gets, ask, ret.
  destruct (LastError_Get (err g));
    [intros [= <- <-]; now left | intros [= <- <-]; now right].
Qed.

Lemma Position_observes (g g' : rtkI2C) r :
  Position env g = Ret r g' -> g' = g \/ g' = consulted OpPosition g.
Proof.
  unfold Position, bind, err_Get, gets, ask, ret.
  destruct (LastError_Get (err g)).
  - destruct (GetLastPosition (lastposition g)); intros [= <- <-]; now left.
  - destruct (nmea_Position env (List.length (trace g))) as [[[p|] alt] [e|]];
      cbn.
    + destruct (IsZeroPosition p || IsPositionNaN p); cbn;
        [destruct (GetLastPosition (lastposition g))|];
        intros [= <- <-]; now right.
    + destruct (IsPositionNaN p); intros [= <- <-]; now right.
    + intros [= <- <-]; now right.
    + discriminate.
Qed.

(** X7.  The reads of the facade are observers: whatever the sensor
    answers, a read that returns has changed nothing of the receiver (the
    error slot, the position cache, the session, the context) and has
    consulted the sensor at most once, with its own operation. *)
Theorem X7_reads_only_observe (g g' : rtkI2C) :
  (forall r, Position env g = Ret r g' ->
             g' = g \/ g' = consulted OpPosition g)
  /\ (forall r, LinearVelocity env g = Ret r g' ->
                g' = g \/ g' = consulted OpLinearVelocity g)
  /\ (forall r, LinearAcceleration env g = Ret r g' ->
                g' = g \/ g' = consulted OpLinearAcceleration g)
  /\ (forall r, AngularVelocity_ env g = Ret r g' ->
                g' = g \/ g' = consulted OpAngularVelocity g)
  /\ (forall r, CompassHeading env g = Ret r g' ->
                g' = g \/ g' = consulted OpCompassHeading g)
  /\ (forall r, Orientation_ NewZeroOrientation env g = Ret r g' ->
                g' = g \/ g' = consulted OpOrientation g)
  /\ (forall r, Properties_ Properties_zero env g = Ret r g' ->
                g' = g \/ g' = consulted OpProperties g)
  /\ (forall r, Accuracy env g = Ret r g' ->
                g' = g \/ g' = consulted OpAccuracy g).
Proof.
  split; [intros r; apply Position_observes|].
  repeat split; intros r; apply passthrough_observes.
Qed.

(** X8.  Whenever [Position] returns a non-nil error, the point it returns
    is (NaN, NaN) and the altitude is NaN; and that error is the latched one
    when an error is latched, the sensor's own otherwise. *)
Theorem X8_Position_errors_carry_NaN
        (g g' : rtkI2C) (p : option Point) (alt : float64) (e : error) :
  Position env g = Ret (p, alt, Some e) g' ->
  p = Some P_NaN
  /\ alt = NaN
  /\ match LastError_Get (err g) with
     | Some latchedError => e = latchedError
     | None => snd (nmea_Position env (List.length (trace g))) = Some e
     end.
Proof.
  unfold Position, bind, err_Get, gets, ask, ret.
  destruct (LastError_Get (err g)) as [l|].
  - destruct (GetLastPosition (lastposition g)); intros [= <- <- <- <-];
      repeat split.
  - destruct (nmea_Position env (List.length (trace g)))
      as [[[q|] a] [e'|]]; cbn.
    + destruct (IsZeroPosition q || IsPositionNaN q); cbn;
        [destruct (GetLastPosition (lastposition g))|];
        try discriminate; intros [= <- <- <- <-]; repeat split.
    + destruct (IsPositionNaN q); discriminate.
    + intros [= <- <- <- <-]; repeat split.
    + discriminate.
Qed.

(** X9.  With nothing latched and nothing cached, a fix with a NaN
    coordinate and a nil error makes [Position] return a nil point together
    with the sensor's altitude and a nil error. *)
Theorem X9_NaN_fix_without_cache_is_nil
        (g : rtkI2C) (p : Point) (alt : float64) :
  LastError_Get (err g) = None ->
  GetLastPosition (lastposition g) = None ->
  nmea_Position env (List.length (trace g)) = (Some p, alt, None) ->
  IsNaN (Lat p) = true \/ IsNaN (Lng p) = true ->
  Position env g = Ret (None, alt, None) (consulted OpPosition g).
Proof.
  intros Hle Hc Hfix Hnan.
  assert (Hp : IsPositionNaN p = true).
  { unfold IsPositionNaN. destruct Hnan as [H|H]; rewrite H;
      [apply orb_true_r|reflexivity]. }
  unfold Position, bind, err_Get, gets, ask, ret.
  rewrite Hle, Hfix. cbn. rewrite Hp. cbn. unfold consulted. cbn.
  rewrite Hc. reflexivity.
Qed.

End FacadeInvariants.

Section ClosingResources.

Context {Orientation Properties : Type}.
Variable env : Env Orientation Properties.

(** X10.  When the NMEA sensor, the correction writer (if any) and the
    stream (if any) close without error, [Close] reaches its wait with the
    correction writer, the session's client and the session's stream all set
    to nil, the rest of the session being as it was. *)
Theorem X10_Close_releases_before_waiting
        (g : rtkI2C) (info : NtripInfo) :
  ntripClient g = Some info ->
  nmea_Close env (S (List.length (trace g))) = None ->
  (forall t, correctionWriter_Close env t = None) ->
  (forall t, Stream_Close env t = None) ->
  exists g1,
    Close env g
    = (if activeBackgroundWorkers (waited env g1) =? 0
       then Ret (reportedOnClose (waited env g1)) (waited env g1)
       else Blocked (waited env g1))
    /\ correctionWriter g1 = None
    /\ ntripClient g1 = Some (set_Stream None (set_Client None info))
    /\ cancelCtx g1 = Some context_Canceled.
Proof.
  intros Hn He Hw Hs.
  assert (Hfin : forall g1 : rtkI2C,
    (Wait env ;; e <- err_Get ;;
     match e with
     | Some e' => if negb (errors_Is e' context_Canceled)
                  then ret e else ret None
     | None => ret None
     end)%go g1
    = if activeBackgroundWorkers (waited env g1) =? 0
      then Ret (reportedOnClose (waited env g1)) (waited env g1)
      else Blocked (waited env g1)).
  { intros g1. unfold bind at 1. rewrite Wait_spec.
    destruct (activeBackgroundWorkers (waited env g1) =? 0); [|reflexivity].
    unfold reportedOnClose. go.
    match goal with
    | |- context [LastError_Get ?x] =>
        destruct (LastError_Get x) as [e'|]; [|reflexivity]
    end.
    now destruct (errors_Is e' context_Canceled). }
  destruct info as [u us pw mp cl st ma].
  destruct (correctionWriter g) as [w|] eqn:Ew;
    destruct cl as [c|]; destruct st as [s|].
  all: eexists; split;
         [ rewrite <- Hfin; unfold Close, cancelFunc; go; rewrite He; go;
           repeat (progress (rewrite ?Ew, ?Hw, ?Hn, ?Hs; go)); reflexivity
         | cbn; rewrite ?Hn, ?Ew; repeat split ].
Qed.

(** X11.  When the NMEA sensor closes but the correction writer does not,
    [Close] returns the writer's error at once: the session's client and
    stream are neither closed nor cleared, the writer stays set and the
    relay task is not waited for. *)
Theorem X11_Close_stops_at_writer_error
        (g : rtkI2C) (w : Closer) (e : error) :
  nmea_Close env (S (List.length (trace g))) = None ->
  correctionWriter g = Some w ->
  correctionWriter_Close env (S (S (List.length (trace g)))) = Some e ->
  exists g',
    Close env g = Ret (Some e) g'
    /\ ntripClient g' = ntripClient g
    /\ correctionWriter g' = Some w
    /\ activeBackgroundWorkers g' = activeBackgroundWorkers g
    /\ trace g' = E_WriterClose w :: E_Sensor OpClose :: E_Cancel :: trace g.
Proof.
  intros He Hw Hc. eexists. split.
  - unfold Close, cancelFunc. go. rewrite He. go. rewrite Hw. go.
    rewrite Hc. go. reflexivity.
  - cbn. repeat split. exact Hw.
Qed.

End ClosingResources.

Section VirtualBaseEdges.

Variable base64_EncodeToString : string -> string.
Variable venv : VEnv.

Lemma bufferLen_eq : bufferLen = 1024%nat.
Proof. reflexivity. Qed.

#[local] Arguments connectToVirtualBase : simpl never.
#[local] Opaque bufferLen.

Lemma getGGAMessage_loop_result (fuel : nat) :
  forall (buffer : list byte) (g g' : rtkSerial)
         (msg : list byte) (e : option error),
    (List.length buffer <= bufferLen)%nat ->
    getGGAMessage_loop venv fuel buffer g = Ret (msg, e) g' ->
    match e with
    | None => containsGGAMessage msg = true
              /\ (List.length msg <= bufferLen)%nat
              /\ firstn (List.length buffer) msg = buffer
    | Some _ => msg = []
    end.
Proof.
  induction fuel as [|fuel IH]; intros buffer g g' msg e Hlen; [discriminate|].
  cbn [getGGAMessage_loop]. vgo.
  destruct (vcorrectionWriter g) as [w|]; [|discriminate]. vgo.
  destruct (correctionWriter_Read venv (List.length (vtrace g)))
    as [data [e'|]]; vgo.
  - intros [= <- <- <-]. reflexivity.
  - set (buffer' := (buffer ++ firstn (bufferLen - List.length buffer) data)%list).
    assert (Hlen' : (List.length buffer' <= bufferLen)%nat).
    { unfold buffer'. rewrite length_app, length_firstn. lia. }
    assert (Hpre : firstn (List.length buffer) buffer' = buffer).
    { unfold buffer'. rewrite firstn_app, Nat.sub_diag, firstn_all. cbn.
      apply app_nil_r. }
    destruct (containsGGAMessage buffer') eqn:Hgga.
    + intros [= <- <- <-]. repeat split; assumption.
    + destruct (bufferLen <=? List.length buffer')%nat.
      * intros [= <- <- <-]. reflexivity.
      * intros Hrun. apply IH in Hrun; [|exact Hlen'].
        destruct e as [e|]; [exact Hrun|].
        destruct Hrun as (H1 & H2 & H3). repeat split; try assumption.
        rewrite <- Hpre at 2. rewrite <- H3.
        rewrite firstn_firstn. f_equal.
        unfold buffer'. rewrite length_app. lia.
Qed.

(** X12.  Whatever is read, a message that [getGGAMessage] returns with a
    nil error contains "GGA" and is at most 1024 bytes long; with a non-nil
    error the message is nil. *)
Theorem X12_getGGAMessage_result
        (fuel : nat) (g g' : rtkSerial) (msg : list byte) (e : option error) :
  getGGAMessage venv fuel g = Ret (msg, e) g' ->
  match e with
  | None => containsGGAMessage msg = true /\ (List.length msg <= 1024)%nat
  | Some _ => msg = []
  end.
Proof.
  intros Hrun. unfold getGGAMessage in Hrun.
  apply getGGAMessage_loop_result in Hrun; [|apply Nat.le_0_l].
  destruct e; [exact Hrun|].
  destruct Hrun as (H1 & H2 & _). split; [exact H1|].
  rewrite bufferLen_eq in H2. exact H2.
Qed.

Lemma getGGAMessage_loop_returns (fuel : nat) :
  forall (buffer : list byte) (g : rtkSerial) (w : Closer),
    vcorrectionWriter g = Some w ->
    (forall t, fst (correctionWriter_Read venv t) <> []) ->
    (bufferLen - List.length buffer < fuel)%nat ->
    exists r g', getGGAMessage_loop venv fuel buffer g = Ret r g'.
Proof.
  induction fuel as [|fuel IH]; intros buffer g w Hw Hdata Hfuel; [lia|].
  cbn [getGGAMessage_loop]. vgo. rewrite Hw. vgo.
  pose proof (Hdata (List.length (vtrace g))) as Hd.
  destruct (correctionWriter_Read venv (List.length (vtrace g)))
    as [data [e'|]]; vgo.
  - eexists _, _. reflexivity.
  - set (buffer' := (buffer ++ firstn (bufferLen - List.length buffer) data)%list).
    destruct (containsGGAMessage buffer'); [eexists _, _; reflexivity|].
    destruct (Nat.leb_spec bufferLen (List.length buffer')) as [Hfull|Hroom];
      [eexists _, _; reflexivity|].
    apply (IH buffer' _ w); [exact Hw|exact Hdata|].
    assert (Hgrow : (List.length buffer < List.length buffer')%nat).
    { unfold buffer' in *. rewrite length_app, length_firstn in *.
      cbn in Hd. destruct data as [|b data]; [congruence|]. cbn [List.length].
      lia. }
    lia.
Qed.

(** X13.  [getGGAMessage] over a correction stream that is set and whose
    every read delivers at least one byte returns after at most 1025 reads,
    with the message or with an error. *)
Theorem X13_getGGAMessage_returns
        (fuel : nat) (g : rtkSerial) (w : Closer) :
  vcorrectionWriter g = Some w ->
  (forall t, fst (correctionWriter_Read venv t) <> []) ->
  (1024 < fuel)%nat ->
  exists r g', getGGAMessage venv fuel g = Ret r g'.
Proof.
  intros Hw Hdata Hfuel. unfold getGGAMessage.
  apply (getGGAMessage_loop_returns fuel [] g w Hw Hdata).
  cbn [List.length]. rewrite Nat.sub_0_r, bufferLen_eq. exact Hfuel.
Qed.

(** X14.  [connectToVirtualBase] unlocks [urlMutex] on success only: when
    it returns nil (the dial, the write or the flush failed) the mutex stays
    locked, and every later call of [connectToVirtualBase] on that receiver
    blocks for ever; when it returns a ReadWriter the mutex is free. *)
Theorem X14_connectToVirtualBase_keeps_lock_on_failure
        (g g' : rtkSerial) (r : option ReadWriter) :
  connectToVirtualBase base64_EncodeToString venv g = Ret r g' ->
  match r with
  | None =>
      urlMutex g' = true
      /\ forall venv' : VEnv,
          connectToVirtualBase base64_EncodeToString venv' g' = Blocked g'
  | Some _ => urlMutex g' = false
  end.
Proof.
  unfold connectToVirtualBase. vgo.
  destruct (urlMutex g); [discriminate|]. vgo.
  destruct (vntripClient g) as [n|]; [|discriminate]. vgo.
  destruct (net_Dial venv (List.length (vtrace g))); vgo.
  { intros [= <- <-]. split; reflexivity. }
  destruct (rw_Write venv (S (List.length (vtrace g)))); vgo.
  { intros [= <- <-]. split; reflexivity. }
  destruct (rw_Flush venv (S (S (List.length (vtrace g))))); vgo.
  { intros [= <- <-]. split; reflexivity. }
  intros [= <- <-]. reflexivity.
Qed.

(** X15.  [sendGGAMessage] entered disconnected, with the mutex free and a
    session, panics when the dial fails: the nil that
    [connectToVirtualBase] returns is stored in [g.rw] and dereferenced by
    the handshake loop.  The receiver is left disconnected, with a nil
    ReadWriter and [urlMutex] locked. *)
Theorem X15_sendGGAMessage_panics_when_dial_fails
        (fuel : nat) (g : rtkSerial) (n : NtripInfo) (e : error) :
  isConnected g = false ->
  urlMutex g = false ->
  vntripClient g = Some n ->
  net_Dial venv (S (List.length (vtrace g))) = Some e ->
  exists g',
    sendGGAMessage base64_EncodeToString venv (S fuel) g = Panic g'
    /\ isConnected g' = false
    /\ rw g' = None
    /\ urlMutex g' = true.
Proof.
  intros Hc Hm Hn Hd. eexists. split.
  - unfold sendGGAMessage, connectToVirtualBase. vgo. rewrite Hc. vgo.
    rewrite Hm. vgo. rewrite Hn. vgo. rewrite Hd. vgo. reflexivity.
  - cbn. repeat split.
Qed.

(** A "bad status" line was read: an HTTP/1.1 status line without 200 OK. *)
Lemma handshake_loop_return (fuel : nat) :
  forall (g g' : rtkSerial) (r : option ReadWriter) (e : option error),
    handshake_loop venv fuel g = Ret (inl (r, e)) g' ->
    r = None
    /\ match e with
       | Some e' =>
           if error_same e' io_EOF
           then rw g' = None /\ isConnected g' = false
           else rw g' = rw g /\ isConnected g' = isConnected g
       | None =>
           isConnected g' = false
           /\ rw g' = rw g
           /\ exists c line,
               In (V_ReadLine c line None) (vtrace g')
               /\ HasPrefix line "HTTP/1.1 " = true
               /\ Contains line "200 OK" = false
       end.
Proof.
  induction fuel as [|fuel IH]; intros g g' r e; [discriminate|].
  cbn [handshake_loop]. vgo.
  destruct (rw g) as [[[c|] [w|]]|] eqn:Erw; try discriminate. vgo.
  destruct (rw_ReadLine venv (S (List.length (vtrace g)))) as [line [e'|]];
    vgo.
  - destruct (error_same e' io_EOF) eqn:Heof; vgo;
      intros [= <- <- <-]; rewrite Heof; cbn; repeat split; congruence.
  - destruct (HasPrefix line "HTTP/1.1 ") eqn:Hp.
    + destruct (Contains line "200 OK") eqn:Hok; vgo; [discriminate|].
      intros [= <- <- <-]. cbn. split; [reflexivity|].
      split; [reflexivity|]. split; [congruence|].
      exists (Some c), line. repeat split; try assumption.
      right. left. reflexivity.
    + intros Hrun. apply IH in Hrun. cbn in Hrun.
      rewrite Erw in Hrun. exact Hrun.
Qed.

(** X16.  The handshake loop of [sendGGAMessage], however many lines it
    skips, returns from inside only with a nil ReadWriter: on EOF with [g.rw]
    reset to nil and [isConnected] false; on any other read error with
    [g.rw] and [isConnected] as they were; and with a nil error only after
    an HTTP/1.1 status line without "200 OK" was read, [isConnected] then
    being false. *)
Theorem X16_handshake_returns
        (fuel : nat) (g g' : rtkSerial)
        (r : option ReadWriter) (e : option error) :
  handshake_loop venv fuel g = Ret (inl (r, e)) g' ->
  r = None
  /\ (forall e', e = Some e' -> error_same e' io_EOF = true ->
                 rw g' = None /\ isConnected g' = false)
  /\ (forall e', e = Some e' -> error_same e' io_EOF = false ->
                 rw g' = rw g /\ isConnected g' = isConnected g)
  /\ (e = None ->
      isConnected g' = false
      /\ exists c line,
          In (V_ReadLine c line None) (vtrace g')
          /\ HasPrefix line "HTTP/1.1 " = true
          /\ Contains line "200 OK" = false).
Proof.
  intros Hrun. apply handshake_loop_return in Hrun.
  destruct Hrun as (Hr & He). split; [exact Hr|].
  destruct e as [e0|].
  - split; [|split].
    + intros e' [= <-] Heof. now rewrite Heof in He.
    + intros e' [= <-] Heof. now rewrite Heof in He.
    + discriminate.
  - split; [discriminate|]. split; [discriminate|].
    intros _. destruct He as (H1 & _ & H3). split; assumption.
Qed.

End VirtualBaseEdges.

Section VirtualBaseReplies.

Variable base64_EncodeToString : string -> string.
Variable venv : VEnv.

#[local] Arguments connectToVirtualBase : simpl never.
#[local] Opaque bufferLen.

(** X17.  [sendGGAMessage] returns a nil ReadWriter together with a nil
    error in one situation only: an HTTP/1.1 status line without "200 OK"
    was read; [isConnected] is then false. *)
Theorem X17_sendGGAMessage_nil_nil_is_bad_status
        (fuel : nat) (g g' : rtkSerial) :
  sendGGAMessage base64_EncodeToString venv fuel g = Ret (None, None) g' ->
  isConnected g' = false
  /\ exists c line,
      In (V_ReadLine c line None) (vtrace g')
      /\ HasPrefix line "HTTP/1.1 " = true
      /\ Contains line "200 OK" = false.
Proof.
  unfold sendGGAMessage.
  unfold bind at 1. unfold gets at 1.
  unfold bind at 1.
  destruct ((if isConnected g then ret tt
             else vlog LError "::::::::^^^^^^ NOT CONNECTED CONNECTING" ;;
                  r <- connectToVirtualBase base64_EncodeToString venv ;;
                  modify (with_rw r))%go g) as [[] g0| |];
    try discriminate.
  unfold bind at 1.
  destruct (handshake_loop venv fuel g0) as [[[r e]|[]] g2| |] eqn:Hloop;
    try discriminate.
  - vgo. intros [= -> -> <-].
    apply handshake_loop_return in Hloop.
    destruct Hloop as (_ & H1 & _ & H3). split; assumption.
  - unfold getGGAMessage. unfold bind at 1.
    destruct (getGGAMessage_loop venv fuel [] g2) as [[msg e] g3| |];
      try discriminate.
    destruct e as [e|]; vgo; [discriminate|].
    destruct (rw g3) as [r3|] eqn:Erw3; [|discriminate].
    destruct (Writer r3) as [w|]; [|discriminate]. vgo.
    destruct (rw_WriteString venv _); vgo; [discriminate|].
    destruct (rw_Flush venv _); vgo; [discriminate|].
    rewrite Erw3. discriminate.
Qed.

End VirtualBaseReplies.

Section RelayResilience.

Context {Orientation Properties : Type}.
Variable PMTKAddChk : list byte -> list byte.
Variable env : Env Orientation Properties.

(** [getStream] on a live context whose first request is granted. *)
Lemma getStream_first_try
      (g : rtkI2C) (info : NtripInfo) (c : Client) (s : option Stream)
      (mp : string) (n : Z) :
  cancelCtx g = None ->
  ntripClient g = Some info ->
  NtripClient info = Some c ->
  0 < n ->
  cancel_fired env (S (List.length (trace g))) = false ->
  Client_GetStream env (S (S (List.length (trace g)))) = (s, None) ->
  exists g',
    getStream env mp n g = Ret (LastError_Get (err g)) g'
    /\ ntripClient g' = Some (set_Stream s info)
    /\ err g' = err g
    /\ cancelCtx g' = None
    /\ ntripStatus g' = ntripStatus g
    /\ streamRequests (trace g') = S (streamRequests (trace g)).
Proof.
  intros Hc Hi Hcl Hn Hf Hg.
  destruct (Z.to_nat n) as [|m] eqn:En; [lia|].
  eexists. split.
  - unfold getStream. go. rewrite En. cbn [getStream_attempts].
    unfold ctx_Done, call_GetStream. go. rewrite Hf. go. rewrite Hc. go.
    rewrite Hi. go. rewrite Hcl. go. rewrite Hg. go.
    unfold getStream_finish. go. rewrite Hi. go. reflexivity.
  - cbn [ntripClient err cancelCtx ntripStatus trace with_trace
         with_ntripClient].
    rewrite !streamRequests_cons. cbn.
    repeat split; assumption.
Qed.

#[local] Arguments getStream : simpl never.

(** X18.  In a world where the context is never cancelled, the handle
    always opens and takes the bytes, and the caster grants every stream
    request, a relay loop whose scanner fails without a message in every
    turn never ends and never latches an error: after any number of turns
    it is still running, nothing is latched, and the stream has been
    reopened once per turn. *)
Theorem X18_relay_loop_survives_desync
        (fuel : nat) (g : rtkI2C) (info : NtripInfo) (c : Client)
        (err0 : option error) (scanner : Scanner) :
  (forall t, cancel_fired env t = false) ->
  (forall t, snd (bus_OpenHandle env t) = None) ->
  (forall t, exists e, scanner_NextMessage env t = (None, Some e)) ->
  (forall t, exists s, Client_GetStream env t = (Some s, None)) ->
  (forall t, snd (Stream_Read env t) = None) ->
  (forall t, handle_Write env t = None) ->
  ntripStatus g = true ->
  cancelCtx g = None ->
  LastError_Get (err g) = None ->
  ntripClient g = Some info ->
  NtripClient info = Some c ->
  0 < MaxConnectAttempts info ->
  exists g',
    relayLoop PMTKAddChk env fuel err0 scanner g = Blocked g'
    /\ LastError_Get (err g') = None
    /\ ntripStatus g' = true
    /\ streamRequests (trace g') = (streamRequests (trace g) + fuel)%nat.
Proof.
  intros Hf Ho Hm Hg Hr Hw.
  revert g info scanner.
  induction fuel as [|fuel IH]; intros g info scanner Hs Hc Hle Hi Hcl Hn.
  - exists g. cbn [relayLoop]. go. rewrite Hs. cbn.
    repeat split; try assumption. lia.
  - (* one turn *)
    destruct (bus_OpenHandle env (S (List.length (trace g)))) as [h eo] eqn:Eo.
    pose proof (Ho (S (List.length (trace g)))) as Ho1.
    rewrite Eo in Ho1. cbn in Ho1. subst eo.
    destruct (Hm (S (S (List.length (trace g))))) as (e & Em).
    destruct (getStream_first_try (scannerFailed scanner g) info c
                (fst (Client_GetStream env
                        (S (S (List.length (trace (scannerFailed scanner g)))))))
                (MountPoint info) (MaxConnectAttempts info))
      as (g4 & Hrun & Hi4 & He4 & Hc4 & _ & Hq4);
      [exact Hc | exact Hi | exact Hcl | exact Hn | apply Hf | |].
    { destruct (Hg (S (S (List.length (trace (scannerFailed scanner g))))))
        as (s & Es). rewrite Es. reflexivity. }
    destruct (Hg (S (S (List.length (trace (scannerFailed scanner g))))))
      as (s & Es).
    rewrite Es in Hi4. cbn [fst] in Hi4.
    assert (Hle4 : LastError_Get (err (scannerFailed scanner g)) = None)
      by exact Hle.
    rewrite Hle4 in Hrun.
    destruct (Stream_Read env (List.length (trace g4))) as [buf er] eqn:Er.
    pose proof (Hr (List.length (trace g4))) as Hr1.
    rewrite Er in Hr1. cbn in Hr1. subst er.
    assert (Hcyc :
      relayCycle PMTKAddChk env err0 scanner g
      = Ret (Continue (NewScanner (Some s)))
            (with_ntripStatus true
               (with_trace (E_Write h (PMTKAddChk buf)
                            :: E_StreamRead s :: trace g4) g4))).
    { unfold relayCycle, ctx_Done. go. rewrite Hf. go. rewrite Hc. go.
      rewrite Eo. go. rewrite Em. go. rewrite Hi. go.
      match goal with
      | |- context [getStream ?e' ?a ?b ?st] =>
          let H := fresh "Hg" in
          assert (H : getStream e' a b st = _) by exact Hrun;
          rewrite H; clear H
      end.
      go. rewrite Hi4. go.
      unfold call_StreamRead. go. rewrite Hi4. go. rewrite Er. go.
      unfold call_Write. go. rewrite Hw. go. reflexivity. }
    rewrite (relayLoop_turn PMTKAddChk env fuel _ _ _ _ _ Hs Hcyc).
    destruct (IH (with_ntripStatus true
                    (with_trace (E_Write h (PMTKAddChk buf)
                                 :: E_StreamRead s :: trace g4) g4))
                 (set_Stream (Some s) info) (NewScanner (Some s)))
      as (g' & Hloop & Hle' & Hs' & Hq').
    + reflexivity.
    + exact Hc4.
    + cbn. rewrite He4. exact Hle.
    + exact Hi4.
    + exact Hcl.
    + exact Hn.
    + exists g'. split; [exact Hloop|]. split; [exact Hle'|].
      split; [exact Hs'|].
      rewrite Hq'. cbn [trace with_trace with_ntripStatus].
      rewrite !streamRequests_cons. cbn. rewrite Hq4.
      unfold scannerFailed. cbn [trace with_trace with_ntripStatus].
      rewrite !streamRequests_cons. cbn. lia.
Qed.

End RelayResilience.

Section ReceiverSetup.

Context {Orientation Properties : Type}.
Variable PMTKAddChk : list byte -> list byte.
Variable env : Env Orientation Properties.

#[local] Arguments getStream : simpl never.
#[local] Arguments connect : simpl never.
#[local] Arguments list_byte_of_string : simpl never.

(** X19.  In [receiveAndWriteI2C], a failed baud-rate command is only
    logged: the task goes on to the NMEA-output command.  If that one fails
    its error is latched and the task ends having sent two commands and
    asked for no stream; if it and the update-rate command succeed the task
    goes on to [getStream], whose error (if any) is what gets latched. *)
Theorem X19_baud_rate_failure_is_tolerated
        (fuel : nat) (g g1 : rtkI2C) (info info1 : NtripInfo)
        (c : Client) (h : Handle) (e1 : error) :
  cancelCtx g = None ->
  ntripClient g = Some info ->
  connect env (URL info) (Username info) (Password info)
          (MaxConnectAttempts info) g = Ret None g1 ->
  ntripClient g1 = Some info1 ->
  NtripClient info1 = Some c ->
  let g2 := probed env c (URL info1) g1 in
  let t := List.length (trace g2) in
  bus_OpenHandle env t = (h, None) ->
  handle_Write env (S t) = Some e1 ->
  (forall e2,
      handle_Write env (S (S (S t))) = Some e2 ->
      exists g',
        receiveAndWriteI2C_body PMTKAddChk env fuel g = Ret tt g'
        /\ LastError_Get (err g') = Some e2
        /\ trace g' = E_Log LDebug "failed to set NMEA output"
                      :: E_Write h (cmd314 PMTKAddChk)
                      :: E_Log LDebug "Failed to set baud rate"
                      :: E_Write h (cmd251 PMTKAddChk (wbaud g2))
                      :: E_OpenHandle (addr g2)
                      :: trace g2)
  /\
  (forall e' g4,
      handle_Write env (S (S (S t))) = None ->
      handle_Write env (S (S (S (S t)))) = None ->
      getStream env (MountPoint info1) (MaxConnectAttempts info1)
                (configuredDespiteBaud PMTKAddChk h g2) = Ret (Some e') g4 ->
      exists g',
        receiveAndWriteI2C_body PMTKAddChk env fuel g = Ret tt g'
        /\ LastError_Get (err g') = Some e'
        /\ trace g' = trace g4).
Proof.
  intros Hc Hi Hconn Hi1 Hcl g2 t Ho Hb.
  unfold receiveAndWriteI2C_body.
  subst t g2. unfold probed in *.
  destruct (Client_IsCasterAlive env (List.length (trace g1))) eqn:Ea;
    cbn [trace with_trace List.length wbaud addr] in *.
  all: split;
    [ intros e2 Hw2; eexists; split;
      [ go; rewrite Hc; go; rewrite Hi; go; rewrite Hconn; go;
        rewrite Hi1; go; rewrite Hcl; go; rewrite Ea; go; rewrite Ho; go;
        unfold call_Write; go; rewrite Hb; go; rewrite Hw2; go; reflexivity
      | cbn; split; reflexivity ]
    | intros e' g4 Hw2 Hw3 Hgs; eexists; split;
      [ go; rewrite Hc; go; rewrite Hi; go; rewrite Hconn; go;
        rewrite Hi1; go; rewrite Hcl; go; rewrite Ea; go; rewrite Ho; go;
        unfold call_Write; go; rewrite Hb; go; rewrite Hw2; go;
        rewrite Hw3; go;
        match goal with
        | |- context [getStream ?e0 ?a ?b ?st] =>
            let H := fresh "Hg" in
            assert (H : getStream e0 a b st = Ret (Some e') g4)
              by exact Hgs;
            rewrite H; clear H
        end;
        go; reflexivity
      | cbn; split; reflexivity ] ].
Qed.

End ReceiverSetup.

Section Substrings.

Lemma HasPrefix_spec (p : string) :
  forall s : string, HasPrefix s p = true <-> exists b, s = p ++ b.
Proof.
  induction p as [|c p IH]; intros s.
  - split; [intros _; now exists s|intros _; now destruct s].
  - destruct s as [|d s]; cbn.
    + split; [discriminate|intros (b & Hb); discriminate].
    + rewrite andb_true_iff, IH. split.
      * intros (Hc & b & ->). apply Ascii.eqb_eq in Hc. subst d. now exists b.
      * intros (b & [= -> ->]). split; [apply Ascii.eqb_refl|now exists b].
Qed.

Lemma Contains_spec (sub : string) :
  forall s : string, Contains s sub = true <-> exists a b, s = a ++ sub ++ b.
Proof.
  induction s as [|d s IH].
  - cbn [Contains]. rewrite orb_false_r, HasPrefix_spec. split.
    + intros (b & Hb). now exists "", b.
    + intros (a & b & Hab). destruct a as [|x a]; [now exists b|discriminate].
  - cbn [Contains]. rewrite orb_true_iff, HasPrefix_spec, IH. split.
    + intros [(b & Hb)|(a & b & ->)].
      * now exists "", b.
      * now exists (String d a), b.
    + intros (a & b & Hab). destruct a as [|x a].
      * left. now exists b.
      * right. injection Hab as -> ->. now exists a, b.
Qed.

(** X20.  [containsGGAMessage] answers true exactly when the three
    characters "GGA" occur in a row somewhere in the data read as text. *)
Theorem X20_containsGGAMessage_spec (data : list byte) :
  containsGGAMessage data = true
  <-> exists a b, string_of_list_byte data = a ++ "GGA" ++ b.
Proof. unfold containsGGAMessage. apply Contains_spec. Qed.

Lemma substring_all (s : string) :
  String.substring 0 (String.length s) s = s.
Proof. induction s as [|c s IH]; cbn; [reflexivity|now rewrite IH]. Qed.

Lemma TrimPrefix_present (p s : string) : TrimPrefix (p ++ s) p = s.
Proof.
  unfold TrimPrefix.
  replace (HasPrefix (p ++ s) p) with true
    by (symmetry; apply HasPrefix_spec; now exists s).
  induction p as [|c p IH]; cbn.
  - rewrite Nat.sub_0_r. apply substring_all.
  - exact IH.
Qed.

Lemma TrimPrefix_absent (s p : string) :
  HasPrefix s p = false -> TrimPrefix s p = s.
Proof. unfold TrimPrefix. now intros ->. Qed.

End Substrings.

Section VirtualBaseAddress.

Variable base64_EncodeToString : string -> string.
Variable venv : VEnv.

(** X21.  [connectToVirtualBase], with the mutex free, dials the caster at
    the configured URL with its scheme removed: for a URL "http://" + host
    or "https://" + host, where host itself starts with neither scheme, the
    first thing it does is dial tcp at host. *)
Theorem X21_connectToVirtualBase_dials_host
        (g g' : rtkSerial) (n : NtripInfo) (host : string)
        (r : option ReadWriter) :
  urlMutex g = false ->
  vntripClient g = Some n ->
  URL n = "http://" ++ host \/ URL n = "https://" ++ host ->
  HasPrefix host "http://" = false ->
  HasPrefix host "https://" = false ->
  connectToVirtualBase base64_EncodeToString venv g = Ret r g' ->
  exists later, vtrace g' = (later ++ V_Dial "tcp" host :: vtrace g)%list.
Proof.
  intros Hm Hn Hurl Hh Hs.
  assert (Haddr : TrimPrefix (TrimPrefix (URL n) "http://") "https://" = host).
  { destruct Hurl as [-> | ->].
    - rewrite TrimPrefix_present. now apply TrimPrefix_absent.
    - rewrite (TrimPrefix_absent ("https://" ++ host) "http://")
        by reflexivity.
      apply TrimPrefix_present. }
  unfold connectToVirtualBase. vgo. rewrite Hm. vgo. rewrite Hn. vgo.
  rewrite Haddr.
  destruct (net_Dial venv (List.length (vtrace g))); vgo.
  { intros [= <- <-]. cbn.
    now exists [V_Log LError "Failed to connect to VRS server:"]. }
  destruct (rw_Write venv (S (List.length (vtrace g)))); vgo.
  { intros [= <- <-]. cbn. eexists [_; _]. reflexivity. }
  destruct (rw_Flush venv (S (S (List.length (vtrace g))))); vgo.
  { intros [= <- <-]. cbn. eexists [_; _; _]. reflexivity. }
  intros [= <- <-]. cbn. eexists [_; _; _; _]. reflexivity.
Qed.

End VirtualBaseAddress.

(** ** The further properties at work on the scenarios *)

Lemma X1_Validate_required_fields_witness :
  Validate fieldRequired testConfig "path" = (Some [], None).
Proof.
  apply (X1_Validate_required_fields fieldRequired testConfig "path");
    discriminate.
Defined.

Lemma X2_connect_exhausts_its_budget_witness :
  exists g',
    connect envNoCaster "invalidurl" "user" "pwd" 3 bareRtkI2C
    = Ret (Some (errors_New "Can't connect to NTRIP caster after 3 attempts"))
          g'
    /\ clientRequests (trace g') = 3%nat
    /\ ntripClient g' = None.
Proof.
  eexists. split.
  - apply (X2_connect_exhausts_its_budget envNoCaster bareRtkI2C
             "invalidurl" "user" "pwd" 3).
    intros j _. discriminate.
  - split; reflexivity.
Defined.

Lemma X3_getStream_respects_its_budget_witness :
  exists g',
    getStream envNoHost "NYC" 10 streamingI2C = Ret (Some noSuchHost) g'
    /\ (streamRequests (trace streamingI2C) <= streamRequests (trace g')
        <= streamRequests (trace streamingI2C) + Z.to_nat 10)%nat.
Proof.
  eexists. split; [vm_compute; reflexivity|].
  apply (X3_getStream_respects_its_budget envNoHost streamingI2C _ "NYC" 10
           (Some noSuchHost)).
  vm_compute. reflexivity.
Defined.

Lemma X4_getStream_cancelled_at_entry_witness :
  exists g',
    getStream envNormal "NYC" 10 cancelledI2C
    = Ret (Some (errors_New "Canceled")) g'
    /\ ntripClient g' = ntripClient cancelledI2C
    /\ err g' = err cancelledI2C
    /\ streamRequests (trace g') = streamRequests (trace cancelledI2C).
Proof.
  apply (X4_getStream_cancelled_at_entry envNormal cancelledI2C
           context_Canceled "NYC" 10); reflexivity.
Defined.

Lemma X5_getStream_without_budget_witness :
  exists g',
    getStream envNormal "NYC" 0 streamingI2C = Ret None g'
    /\ ntripClient g'
       = Some (set_Stream None
                 (set_Stream (Some 0%nat) (set_Client (Some 1%nat) testInfo)))
    /\ streamRequests (trace g') = streamRequests (trace streamingI2C).
Proof.
  apply (X5_getStream_without_budget envNormal streamingI2C
           (set_Stream (Some 0%nat) (set_Client (Some 1%nat) testInfo))
           "NYC" 0); [discriminate|reflexivity].
Defined.

Lemma X6_getStream_stops_at_first_success_witness :
  exists g',
    getStream envLateStream "NYC" 10 streamingI2C = Ret None g'
    /\ ntripClient g'
       = Some (set_Stream (Some 9%nat)
                 (set_Stream (Some 0%nat) (set_Client (Some 1%nat) testInfo)))
    /\ err g' = err streamingI2C
    /\ streamRequests (trace g') = 3%nat.
Proof.
  apply (X6_getStream_stops_at_first_success envLateStream streamingI2C
           (set_Stream (Some 0%nat) (set_Client (Some 1%nat) testInfo))
           1%nat "NYC" 10 2%nat (Some 9%nat)).
  - reflexivity.
  - reflexivity.
  - reflexivity.
  - vm_compute. lia.
  - intros j _. reflexivity.
  - intros j Hj. destruct j as [|[|j]]; [discriminate|discriminate|lia].
  - reflexivity.
Defined.

Lemma X8_Position_errors_carry_NaN_witness :
  exists p alt g',
    Position envSensorFailing newRtkI2C
    = Ret (p, alt, Some (errors_New "no fix yet")) g'
    /\ p = Some P_NaN
    /\ alt = NaN.
Proof.
  eexists _, _, _. split; [vm_compute; reflexivity|].
  destruct (X8_Position_errors_carry_NaN envSensorFailing newRtkI2C
              (consulted OpPosition newRtkI2C) (Some P_NaN) NaN
              (errors_New "no fix yet") eq_refl) as (H1 & H2 & _).
  split; assumption.
Defined.

Lemma X9_NaN_fix_without_cache_is_nil_witness :
  Position envNaN newRtkI2C = Ret (None, NaN, None) (consulted OpPosition newRtkI2C).
Proof.
  apply (X9_NaN_fix_without_cache_is_nil envNaN newRtkI2C P_NaN NaN);
    try reflexivity.
  left. reflexivity.
Defined.

Lemma X10_Close_releases_before_waiting_witness :
  exists g1,
    Close envNormal writingI2C
    = (if activeBackgroundWorkers (waited envNormal g1) =? 0
       then Ret (reportedOnClose (waited envNormal g1)) (waited envNormal g1)
       else Blocked (waited envNormal g1))
    /\ correctionWriter g1 = None
    /\ ntripClient g1
       = Some (set_Stream None (set_Client None
                 (set_Stream (Some 0%nat) (set_Client (Some 1%nat) testInfo))))
    /\ cancelCtx g1 = Some context_Canceled.
Proof.
  apply (X10_Close_releases_before_waiting envNormal writingI2C
           (set_Stream (Some 0%nat) (set_Client (Some 1%nat) testInfo)));
    try reflexivity; intros t; reflexivity.
Defined.

Lemma X11_Close_stops_at_writer_error_witness :
  exists g',
    Close envWriterStuck writingI2C = Ret (Some writerCloseError) g'
    /\ ntripClient g' = ntripClient writingI2C
    /\ correctionWriter g' = Some 5%nat
    /\ activeBackgroundWorkers g' = activeBackgroundWorkers writingI2C
    /\ trace g' = E_WriterClose 5%nat :: E_Sensor OpClose :: E_Cancel
                  :: trace writingI2C.
Proof.
  apply (X11_Close_stops_at_writer_error envWriterStuck writingI2C 5%nat
           writerCloseError); reflexivity.
Defined.

Lemma X12_getGGAMessage_result_witness :
  exists msg g',
    getGGAMessage (casterAnswering "HTTP/1.1 200 OK" None) 3 newRtkSerial
    = Ret (msg, None) g'
    /\ containsGGAMessage msg = true
    /\ (List.length msg <= 1024)%nat.
Proof.
  assert (Hrun : exists msg g',
    getGGAMessage (casterAnswering "HTTP/1.1 200 OK" None) 3 newRtkSerial
    = Ret (msg, None) g') by (eexists _, _; vm_compute; reflexivity).
  destruct Hrun as (msg & g' & Hrun). exists msg, g'.
  split; [exact Hrun|].
  exact (X12_getGGAMessage_result (casterAnswering "HTTP/1.1 200 OK" None)
           3%nat newRtkSerial g' msg None Hrun).
Defined.

Lemma X13_getGGAMessage_returns_witness :
  exists r g',
    getGGAMessage (casterAnswering "HTTP/1.1 200 OK" None) 1025 newRtkSerial
    = Ret r g'.
Proof.
  apply (X13_getGGAMessage_returns (casterAnswering "HTTP/1.1 200 OK" None)
           1025%nat newRtkSerial 1%nat).
  - reflexivity.
  - intros t. discriminate.
  - apply Nat.lt_succ_diag_r.
Defined.

Lemma X14_connectToVirtualBase_keeps_lock_on_failure_witness :
  exists g',
    connectToVirtualBase plainCredentials casterUnreachable newRtkSerial
    = Ret None g'
    /\ urlMutex g' = true
    /\ connectToVirtualBase plainCredentials
         (casterAnswering "HTTP/1.1 200 OK" None) g' = Blocked g'.
Proof.
  assert (Hrun : exists g',
    connectToVirtualBase plainCredentials casterUnreachable newRtkSerial
    = Ret None g') by (eexists; vm_compute; reflexivity).
  destruct Hrun as (g' & Hrun). exists g'. split; [exact Hrun|].
  destruct (X14_connectToVirtualBase_keeps_lock_on_failure plainCredentials
              casterUnreachable newRtkSerial g' None Hrun) as (H1 & H2).
  split; [exact H1|apply H2].
Defined.

Lemma X15_sendGGAMessage_panics_when_dial_fails_witness :
  exists g',
    sendGGAMessage plainCredentials casterUnreachable 3 newRtkSerial = Panic g'
    /\ isConnected g' = false
    /\ rw g' = None
    /\ urlMutex g' = true.
Proof.
  apply (X15_sendGGAMessage_panics_when_dial_fails plainCredentials
           casterUnreachable 2%nat newRtkSerial testInfo noSuchHost);
    reflexivity.
Defined.

Lemma X16_handshake_returns_witness :
  exists g0 g',
    handshake_loop casterRefusing 3 g0 = Ret (inl (None, None)) g'
    /\ isConnected g0 = true
    /\ isConnected g' = false.
Proof.
  exists (with_isConnected true
            (with_rw (Some (NewReadWriter (Some 0%nat) (Some 0%nat)))
                     newRtkSerial)).
  assert (Hrun : exists g',
    handshake_loop casterRefusing 3
      (with_isConnected true
         (with_rw (Some (NewReadWriter (Some 0%nat) (Some 0%nat)))
                  newRtkSerial))
    = Ret (inl (None, None)) g') by (eexists; vm_compute; reflexivity).
  destruct Hrun as (g' & Hrun). exists g'.
  split; [exact Hrun|]. split; [reflexivity|].
  destruct (X16_handshake_returns casterRefusing 3%nat _ g' None None Hrun)
    as (_ & _ & _ & H).
  exact (proj1 (H eq_refl)).
Defined.

Lemma X17_sendGGAMessage_nil_nil_is_bad_status_witness :
  exists g',
    sendGGAMessage plainCredentials casterRefusing 3 newRtkSerial
    = Ret (None, None) g'
    /\ isConnected g' = false.
Proof.
  assert (Hrun : exists g',
    sendGGAMessage plainCredentials casterRefusing 3 newRtkSerial
    = Ret (None, None) g') by (eexists; vm_compute; reflexivity).
  destruct Hrun as (g' & Hrun). exists g'. split; [exact Hrun|].
  exact (proj1 (X17_sendGGAMessage_nil_nil_is_bad_status plainCredentials
                  casterRefusing 3%nat newRtkSerial g' Hrun)).
Defined.

Lemma X18_relay_loop_survives_desync_witness :
  exists g',
    relayLoop noChecksum envDesync 4 None (NewScanner (Some 0%nat)) streamingI2C
    = Blocked g'
    /\ LastError_Get (err g') = None
    /\ ntripStatus g' = true
    /\ streamRequests (trace g')
       = (streamRequests (trace streamingI2C) + 4)%nat.
Proof.
  apply (X18_relay_loop_survives_desync noChecksum envDesync 4%nat
           streamingI2C
           (set_Stream (Some 0%nat) (set_Client (Some 1%nat) testInfo))
           1%nat None (NewScanner (Some 0%nat)));
    try reflexivity.
  - intros t. exists io_EOF. reflexivity.
  - intros t. exists 1%nat. reflexivity.
Defined.

Lemma X19_baud_rate_failure_is_tolerated_witness :
  exists g',
    receiveAndWriteI2C_body noChecksum envCommandsRefused 3 newRtkI2C
    = Ret tt g'
    /\ LastError_Get (err g') = Some outputError.
Proof.
  assert (Hconn : exists g1,
    connect envCommandsRefused (URL testInfo) (Username testInfo)
            (Password testInfo) (MaxConnectAttempts testInfo) newRtkI2C
    = Ret None g1
    /\ ntripClient g1 = Some (set_Client (Some 1%nat) testInfo))
    by (eexists; split; [vm_compute; reflexivity|reflexivity]).
  destruct Hconn as (g1 & Hconn & Hi1).
  assert (Hg1 : g1 = with_ntripClient (Some (set_Client (Some 1%nat) testInfo))
                       (with_trace
                          [E_Log LDebug "Connected to NTRIP caster";
                           E_NewClient "http://fakeurl" "user" "pwd";
                           E_Log LInfo "starting connect"] newRtkI2C)).
  { revert Hconn. vm_compute. intros [= <-]. reflexivity. }
  pose proof (X19_baud_rate_failure_is_tolerated noChecksum envCommandsRefused
                3%nat newRtkI2C g1 testInfo
                (set_Client (Some 1%nat) testInfo) 1%nat 1%nat baudError
                eq_refl eq_refl Hconn Hi1 eq_refl) as H.
  cbv zeta in H. subst g1.
  destruct (H eq_refl eq_refl) as (Hfatal & _).
  destruct (Hfatal outputError eq_refl) as (g' & Hrun & Hle & _).
  exists g'. split; assumption.
Defined.

Lemma X21_connectToVirtualBase_dials_host_witness :
  exists r g' later,
    connectToVirtualBase plainCredentials
      (casterAnswering "HTTP/1.1 200 OK" None) newRtkSerial = Ret r g'
    /\ vtrace g' = (later ++ V_Dial "tcp" "fakeurl" :: vtrace newRtkSerial)%list.
Proof.
  assert (Hrun : exists r g',
    connectToVirtualBase plainCredentials
      (casterAnswering "HTTP/1.1 200 OK" None) newRtkSerial = Ret r g')
    by (eexists _, _; vm_compute; reflexivity).
  destruct Hrun as (r & g' & Hrun). exists r, g'.
  destruct (X21_connectToVirtualBase_dials_host plainCredentials
              (casterAnswering "HTTP/1.1 200 OK" None) newRtkSerial g'
              testInfo "fakeurl" r eq_refl eq_refl (or_introl eq_refl)
              eq_refl eq_refl Hrun)
    as (later & Hl).
  exists later. split; [exact Hrun|exact Hl].
Defined.
